(** * wtfs: the directory inode operations of inode.c

    A shallow embedding of [wtfs_create], [wtfs_lookup], [wtfs_unlink] and
    [wtfs_mkdir] (src/inode.c) as state-passing functions over an
    index-keyed inode table, followed by the properties of the namespace
    layer that the specification states about them.

    inode.c calls into helper.c ([wtfs_new_inode], [wtfs_add_dentry],
    [wtfs_find_dentry], [wtfs_delete_dentry], [wtfs_iget]) and into the VFS
    ([iput], [d_add], [d_instantiate], [inode_inc_link_count],
    [inode_dec_link_count]).  Neither is part of inode.c: the helpers and
    the release of an evicted inode are modelled from the contracts of the
    specification (sections 4.1 and 4.2), the VFS primitives from their
    kernel semantics. *)

From Stdlib Require Import ZArith String List Lia.
From stdpp Require Import base option list strings gmap fin_maps.

Open Scope Z_scope.

(** ** Error numbers and mode bits (uapi/asm-generic/errno-base.h, stat.h) *)

Module Errno.
Definition ENOENT : Z := 2.
Definition EEXIST : Z := 17.
Definition ENOSPC : Z := 28.
Definition ENAMETOOLONG : Z := 36.
End Errno.
Import Errno.

Module Stat.
Definition S_IFMT : Z := 0xF000.    (* 0170000 *)
Definition S_IFLNK : Z := 0xA000.   (* 0120000 *)
Definition S_IFREG : Z := 0x8000.   (* 0100000 *)
Definition S_IFDIR : Z := 0x4000.   (* 0040000 *)

(** The three kinds of object of the data model. *)
Inductive kind := RegularFile | Directory | SymbolicLink.

(** S_ISREG, S_ISDIR and S_ISLNK: the kind is read off the type bits. *)
Definition kind_of_mode (m : Z) : option kind :=
  let t := Z.land m S_IFMT in
  if decide (t = S_IFREG) then Some RegularFile
  else if decide (t = S_IFDIR) then Some Directory
  else if decide (t = S_IFLNK) then Some SymbolicLink
  else None.

(** A mode as the VFS passes it to an operation that creates an object of
    type [t]: permission bits, with no type bits or with those of [t]. *)
Definition mode_fits (t mode : Z) : Prop :=
  Z.land mode S_IFMT = 0 ∨ Z.land mode S_IFMT = t.
End Stat.
Import Stat.

(** ** The objects: inodes, the inode table, dentries *)

(** [struct inode], restricted to the fields the four operations touch.
    Inode numbers ([ino_t]) are [Z]; a [struct inode *] is the number of the
    inode it points to, its target the entry of the inode table under that
    number (one representative per number). *)
Record inode := Inode {
  i_mode : Z;                       (* umode_t: kind and permission bits *)
  i_nlink : Z;                      (* unsigned int: the link count *)
  i_count : Z;                      (* in-memory references *)
  i_ctime : Z;
  i_dentries : list (string * Z);   (* directory payload: (name, id) records *)
  i_link : string                   (* inline data: a symlink's target *)
}.

Definition set_nlink (n : Z) (i : inode) : inode :=
  Inode (i_mode i) n (i_count i) (i_ctime i) (i_dentries i) (i_link i).
Definition set_count (c : Z) (i : inode) : inode :=
  Inode (i_mode i) (i_nlink i) c (i_ctime i) (i_dentries i) (i_link i).
Definition set_ctime (t : Z) (i : inode) : inode :=
  Inode (i_mode i) (i_nlink i) (i_count i) t (i_dentries i) (i_link i).
Definition set_dentries (l : list (string * Z)) (i : inode) : inode :=
  Inode (i_mode i) (i_nlink i) (i_count i) (i_ctime i) l (i_link i).

(** What the block and allocation layer offers: the number of inode slots
    (identifiers [1 .. s_inode_max]), the room of a directory payload in
    records, the fixed maximum of a name's length, and the clock. *)
Record super_block := SuperBlock {
  s_inode_max : nat;
  s_dentry_max : nat;
  s_name_max : nat;
  s_time : Z
}.

Record wtfs := Wtfs {
  sb : super_block;
  itable : gmap Z inode
}.

Definition with_itable (fs : wtfs) (m : gmap Z inode) : wtfs := Wtfs (sb fs) m.

(** [struct dentry] as the VFS hands it in: the name under lookup, the inode
    it is bound to ([None] for a negative dentry) and whether it is hashed. *)
Record dentry := Dentry {
  d_name : string;
  d_inode : option Z;
  d_hashed : bool
}.

(** A pointer result: a valid inode pointer or [ERR_PTR(e)]. *)
Inductive ptr := Ptr (vi : Z) | ErrPtr (e : Z).

(** Readers used by the statements. *)
Definition entries_of (fs : wtfs) (dir : Z) : list (string * Z) :=
  match itable fs !! dir with Some d => i_dentries d | None => [] end.

Definition nlink_of (fs : wtfs) (vi : Z) : option Z := i_nlink <$> itable fs !! vi.
Definition ctime_of (fs : wtfs) (vi : Z) : option Z := i_ctime <$> itable fs !! vi.
Definition kind_of (fs : wtfs) (vi : Z) : option kind :=
  itable fs !! vi ≫= λ i, kind_of_mode (i_mode i).

(** ** The helpers of helper.c *)

Module Helper.

(** Modelled from the spec: the inode allocator behind [wtfs_new_inode] is
    missing.  Sections 1 and 3: allocate_inode hands out a non-zero
    identifier that is not in use and may reuse a released one; here the
    first free identifier of [1 .. s_inode_max]. *)
Definition wtfs_alloc_free_inode (fs : wtfs) : option Z :=
  snd <$> list_find (λ n, itable fs !! n = None)
                    (seqZ 1 (Z.of_nat (s_inode_max (sb fs)))).

(** Modelled from the spec: [wtfs_new_inode] of helper.c is missing.
    Section 4.2, new_inode: reserves a fresh identifier and writes an
    initial record with link_count = 0, kind derived from mode (the mode
    is stored as given) and payload seeded from the inline data; fails
    with NoSpace when no identifier is free.  The caller holds the one
    reference to the new inode. *)
Definition wtfs_new_inode (fs : wtfs) (dir : Z) (mode : Z)
    (path : option string) (length : nat) : wtfs * ptr :=
  match wtfs_alloc_free_inode fs with
  | None => (fs, ErrPtr (- ENOSPC))
  | Some ino =>
      let data := match path with
                  | Some p => substring 0 length p
                  | None => EmptyString
                  end in
      (with_itable fs
         (<[ino := Inode mode 0 1 (s_time (sb fs)) [] data]> (itable fs)),
       Ptr ino)
  end.

(** Modelled from the spec: [wtfs_iget] of helper.c is missing.
    Section 4.2, get: returns the single representative of the identifier
    (taking a reference on it) or fails with NotFound.  The table holds no
    corrupt record, so the Corrupt error of get does not arise here; the
    statements about lookup are generic in the error of get or hold
    whatever it is. *)
Definition wtfs_iget (fs : wtfs) (ino : Z) : wtfs * ptr :=
  match itable fs !! ino with
  | None => (fs, ErrPtr (- ENOENT))
  | Some i =>
      (with_itable fs (<[ino := set_count (i_count i + 1) i]> (itable fs)),
       Ptr ino)
  end.

Fixpoint find_by_name (name : string) (l : list (string * Z)) : Z :=
  match l with
  | [] => 0
  | (n, ino) :: l' => if decide (n = name) then ino else find_by_name name l'
  end.

(** Modelled from the spec: [wtfs_find_dentry] of helper.c is missing.
    Section 4.1, find: a scan of the payload that returns the identifier
    of the first record with the name; inode.c reads 0 as not-found.  The
    result is an [ino_t], which leaves inode.c no channel for a
    consistency error: among records with the same name the scan yields
    the first.  Statements that depend on which record is found assume
    unique names. *)
Definition wtfs_find_dentry (fs : wtfs) (dir : Z) (name : string) : Z :=
  find_by_name name (entries_of fs dir).

(** Modelled from the spec: [wtfs_add_dentry] of helper.c is missing.
    Section 4.1, add: appends the record (name, inode id); fails with
    NameTooLong beyond the fixed maximum, Duplicate if the name already
    exists, NoSpace if the payload has no room.  A failed add changes
    nothing.  A directory that is not in the table (a dangling pointer
    in C) answers NotFound.  Where several grounds hold at once the order
    of the checks below decides the error; the spec gives none, and the
    statements name an error only where a single ground holds. *)
Definition wtfs_add_dentry (fs : wtfs) (dir ino : Z) (name : string)
    (len : nat) : wtfs * Z :=
  match itable fs !! dir with
  | None => (fs, - ENOENT)
  | Some d =>
      let fname := substring 0 len name in
      if decide (s_name_max (sb fs) < len)%nat then (fs, - ENAMETOOLONG)
      else if decide (fname ∈ (i_dentries d).*1) then (fs, - EEXIST)
      else if decide (s_dentry_max (sb fs) <= List.length (i_dentries d))%nat
      then (fs, - ENOSPC)
      else (with_itable fs
              (<[dir := set_dentries (i_dentries d ++ [(fname, ino)]) d]>
                 (itable fs)),
            0)
  end.

Fixpoint remove_by_name (name : string) (l : list (string * Z))
    : list (string * Z) :=
  match l with
  | [] => []
  | (n, ino) :: l' =>
      if decide (n = name) then l' else (n, ino) :: remove_by_name name l'
  end.

(** Modelled from the spec: [wtfs_delete_dentry] of helper.c is missing.
    Section 4.1, remove: deletes the matching record or fails with
    NotFound; a failed remove changes nothing. *)
Definition wtfs_delete_dentry (fs : wtfs) (dir : Z) (name : string)
    : wtfs * Z :=
  match itable fs !! dir with
  | None => (fs, - ENOENT)
  | Some d =>
      if decide (name ∈ (i_dentries d).*1)
      then (with_itable fs
              (<[dir := set_dentries (remove_by_name name (i_dentries d)) d]>
                 (itable fs)),
            0)
      else (fs, - ENOENT)
  end.

(** Modelled from the spec: the eviction of an unlinked inode (the super
    block operations are not in inode.c) is missing.  Section 4.2, release:
    called once link_count reaches zero and the cache entry is no longer
    referenced; frees the inode slot, and with it the payload, for reuse
    by new_inode. *)
Definition release_inode (fs : wtfs) (ino : Z) : wtfs :=
  with_itable fs (delete ino (itable fs)).
End Helper.
Import Helper.

(** ** VFS primitives *)

Module Vfs.
Definition UINT_MOD : Z := 2 ^ 32.

(** inc_nlink and mark dirty: [inode->__i_nlink++] on an unsigned int. *)
Definition inode_inc_link_count (fs : wtfs) (vi : Z) : wtfs :=
  with_itable fs
    (alter (λ i, set_nlink ((i_nlink i + 1) mod UINT_MOD) i) vi (itable fs)).

(** drop_nlink and mark dirty: [inode->__i_nlink--] on an unsigned int. *)
Definition inode_dec_link_count (fs : wtfs) (vi : Z) : wtfs :=
  with_itable fs
    (alter (λ i, set_nlink ((i_nlink i - 1) mod UINT_MOD) i) vi (itable fs)).

(** iput: drop one reference; dropping the last reference of an inode
    whose link count is zero evicts it, which is where the file system
    releases it. *)
Definition iput (fs : wtfs) (vi : Z) : wtfs :=
  match itable fs !! vi with
  | None => fs
  | Some i =>
      if decide (i_count i - 1 = 0) then
        if decide (i_nlink i = 0)
        then release_inode fs vi
        else with_itable fs (<[vi := set_count 0 i]> (itable fs))
      else with_itable fs (<[vi := set_count (i_count i - 1) i]> (itable fs))
  end.

(** d_instantiate: bind the dentry to the inode; the caller's reference
    moves into the dentry. *)
Definition d_instantiate (d : dentry) (vi : Z) : dentry :=
  Dentry (d_name d) (Some vi) (d_hashed d).

(** d_add: bind the dentry to the inode, or make it negative for NULL,
    and hash it. *)
Definition d_add (d : dentry) (vi : option Z) : dentry :=
  Dentry (d_name d) vi true.
End Vfs.
Import Vfs.

(** ** inode.c *)

(** [wtfs_create]: create a new regular file.  Returns the new state, the
    caller's dentry and the int result (0 or a negative error number). *)
Definition wtfs_create (fs : wtfs) (dir : Z) (de : dentry) (mode : Z)
    (excl : bool) : wtfs * dentry * Z :=
  (* Create a new inode *)
  match wtfs_new_inode fs dir (Z.lor mode S_IFREG) None 0 with
  | (fs1, ErrPtr e) => (fs1, de, e)
  | (fs1, Ptr vi) =>
      (* Add a dentry to its parent directory *)
      let '(fs2, ret) :=
        wtfs_add_dentry fs1 dir vi (d_name de) (String.length (d_name de)) in
      if decide (ret < 0) then (iput fs2 vi, de, ret)
      else
        (* Increase link count *)
        (inode_inc_link_count fs2 vi, d_instantiate de vi, 0)
  end.

(** [wtfs_lookup]: look a name up in a parent directory.  The result is
    [None] for the NULL the code returns on success and [Some e] for
    [ERR_CAST(vi)]. *)
Definition wtfs_lookup (fs : wtfs) (dir : Z) (de : dentry) (flags : Z)
    : wtfs * dentry * option Z :=
  (* Find dentry by name *)
  let ino := wtfs_find_dentry fs dir (d_name de) in
  if decide (ino ≠ 0) then
    match wtfs_iget fs ino with
    | (fs1, ErrPtr e) => (fs1, de, Some e)
    | (fs1, Ptr vi) => (fs1, d_add de (Some vi), None)
    end
  else
    (* We should call d_add() no matter if we find the inode *)
    (fs, d_add de None, None).

(** [wtfs_unlink]: delete a dentry.  [vi = d_inode(dentry)] is dereferenced
    at once; a negative dentry has no result ([None]). *)
Definition wtfs_unlink (fs : wtfs) (dir : Z) (de : dentry)
    : option (wtfs * Z) :=
  vi ← d_inode de;
  (* Delete dentry *)
  let '(fs1, ret) := wtfs_delete_dentry fs dir (d_name de) in
  if decide (ret < 0) then Some (fs1, ret)
  else
    (* Update ctime and link count *)
    let t := default 0 (ctime_of fs1 dir) in
    let fs2 := with_itable fs1 (alter (set_ctime t) vi (itable fs1)) in
    Some (inode_dec_link_count fs2 vi, 0).

(** [wtfs_mkdir]: create a new directory. *)
Definition wtfs_mkdir (fs : wtfs) (dir : Z) (de : dentry) (mode : Z)
    : wtfs * dentry * Z :=
  (* Create a new inode *)
  match wtfs_new_inode fs dir (Z.lor mode S_IFDIR) None 0 with
  | (fs1, ErrPtr e) => (fs1, de, e)
  | (fs1, Ptr vi) =>
      (* Add two dentries of '.' and '..' to itself *)
      let '(fs2, ret) := wtfs_add_dentry fs1 vi vi "." 1 in
      if decide (ret < 0) then (iput fs2 vi, de, ret)
      else
        let '(fs3, ret) := wtfs_add_dentry fs2 vi dir ".." 2 in
        if decide (ret < 0) then (iput fs3 vi, de, ret)
        else
          (* Add a dentry to its parent directory *)
          let '(fs4, ret) :=
            wtfs_add_dentry fs3 dir vi (d_name de)
                            (String.length (d_name de)) in
          if decide (ret < 0) then (iput fs4 vi, de, ret)
          else
            (* Increase link count *)
            (inode_inc_link_count fs4 vi, d_instantiate de vi, 0)
  end.

(** ** A small file system to run the operations on *)

Module Example.
Definition root_inode : inode :=
  Inode (Z.lor S_IFDIR 0x1ED) 1 1 100 [(".", 1); ("..", 1)] "".

(** Eight inode slots, directories of eight records, names of at most
    sixteen bytes; only the root directory (inode 1) exists. *)
Definition fs0 : wtfs := Wtfs (SuperBlock 8 8 16 200) {[ 1 := root_inode ]}.

Definition neg (name : string) : dentry := Dentry name None false.

(** The same file system with directory payloads of [n] records. *)
Definition fs_room (n : nat) : wtfs :=
  Wtfs (SuperBlock 8 n 16 200) {[ 1 := root_inode ]}.

(** A root directory with a record whose inode (7) is not in the table. *)
Definition fs_ghost : wtfs :=
  Wtfs (SuperBlock 8 8 16 200)
       {[ 1 := Inode (Z.lor S_IFDIR 0x1ED) 1 1 100
                     [(".", 1); ("..", 1); ("ghost", 7)] "" ]}.

(** The root directory with a subdirectory "sub" (inode 2) and a regular
    file "a" (inode 3), as mkdir and create leave them. *)
Definition fs_tree : wtfs :=
  Wtfs (SuperBlock 8 8 16 200)
       {[ 1 := Inode (Z.lor S_IFDIR 0x1ED) 1 1 100
                     [(".", 1); ("..", 1); ("sub", 2); ("a", 3)] "";
          2 := Inode (Z.lor S_IFDIR 0x1ED) 1 1 200 [(".", 2); ("..", 1)] "";
          3 := Inode (Z.lor S_IFREG 0x1A4) 1 1 200 [] "" ]}.

(** A file system whose only inode slot is taken by the root directory. *)
Definition fs_noslot : wtfs :=
  Wtfs (SuperBlock 1 8 16 200) {[ 1 := root_inode ]}.

(** A root directory with a record "void" whose inode number is 0. *)
Definition fs_void : wtfs :=
  Wtfs (SuperBlock 8 8 16 200)
       {[ 1 := Inode (Z.lor S_IFDIR 0x1ED) 1 1 100
                     [(".", 1); ("..", 1); ("void", 0)] "" ]}.

(** [fs_tree] with the link count of the file "a" (inode 3) at 0. *)
Definition fs_unlinked : wtfs :=
  Wtfs (SuperBlock 8 8 16 200)
       {[ 1 := Inode (Z.lor S_IFDIR 0x1ED) 1 1 100
                     [(".", 1); ("..", 1); ("sub", 2); ("a", 3)] "";
          2 := Inode (Z.lor S_IFDIR 0x1ED) 1 1 200 [(".", 2); ("..", 1)] "";
          3 := Inode (Z.lor S_IFREG 0x1A4) 0 1 200 [] "" ]}.
End Example.

Import Example.

(** ** Notions used by the statements *)

(** An inode was allocated for mkdir and one of its three entry-add steps
    ('.' into the new inode, '..' into the new inode, the name into [dir])
    is the first to fail, with error [ret]. *)
Inductive mkdir_add_fails (fs : wtfs) (dir : Z) (de : dentry) (mode : Z)
    (vi : Z) (ret : Z) : Prop :=
  | fail_dot fs1 fs2 :
      wtfs_new_inode fs dir (Z.lor mode S_IFDIR) None 0 = (fs1, Ptr vi) →
      wtfs_add_dentry fs1 vi vi "." 1 = (fs2, ret) → ret < 0 →
      mkdir_add_fails fs dir de mode vi ret
  | fail_dotdot fs1 fs2 r1 fs3 :
      wtfs_new_inode fs dir (Z.lor mode S_IFDIR) None 0 = (fs1, Ptr vi) →
      wtfs_add_dentry fs1 vi vi "." 1 = (fs2, r1) → ¬ r1 < 0 →
      wtfs_add_dentry fs2 vi dir ".." 2 = (fs3, ret) → ret < 0 →
      mkdir_add_fails fs dir de mode vi ret
  | fail_name fs1 fs2 r1 fs3 r2 fs4 :
      wtfs_new_inode fs dir (Z.lor mode S_IFDIR) None 0 = (fs1, Ptr vi) →
      wtfs_add_dentry fs1 vi vi "." 1 = (fs2, r1) → ¬ r1 < 0 →
      wtfs_add_dentry fs2 vi dir ".." 2 = (fs3, r2) → ¬ r2 < 0 →
      wtfs_add_dentry fs3 dir vi (d_name de) (String.length (d_name de))
        = (fs4, ret) → ret < 0 →
      mkdir_add_fails fs dir de mode vi ret.

(** The number of records of one payload that name [ino], and the number
    of directory entries across all directories that name it. *)
Definition refs_in (ino : Z) (l : list (string * Z)) : nat :=
  List.length (filter (λ e, e.2 = ino) l).

Definition link_refs (fs : wtfs) (ino : Z) : nat :=
  map_fold (λ _ i n, (refs_in ino (i_dentries i) + n)%nat) 0%nat (itable fs).

(** Every record of every payload names an inode of the table. *)
Definition no_dangling (fs : wtfs) : Prop :=
  map_Forall (λ _ i, Forall (λ e, is_Some (itable fs !! e.2)) (i_dentries i))
             (itable fs).

(** Within every payload the names are pairwise distinct. *)
Definition names_unique (fs : wtfs) : Prop :=
  map_Forall (λ _ i, NoDup (i_dentries i).*1) (itable fs).

(** The records of one payload that name [ino] other than the synthetic
    '.' and '..', and their number across all payloads: the links that
    create and mkdir add and unlink removes. *)
Definition links_in (ino : Z) (l : list (string * Z)) : nat :=
  List.length (filter (λ e, e.2 = ino ∧ e.1 ≠ "." ∧ e.1 ≠ "..") l).

Definition links_to (fs : wtfs) (ino : Z) : nat :=
  map_fold (λ _ i n, (links_in ino (i_dentries i) + n)%nat) 0%nat (itable fs).

(** The link count of [ino] is the number of its links. *)
Definition link_ok (fs : wtfs) (ino : Z) : Prop :=
  nlink_of fs ino = Some (Z.of_nat (links_to fs ino)).

(** A well-formed file system: unique names within every payload, no
    dangling record, and no inode numbered 0. *)
Definition well_formed (fs : wtfs) : Prop :=
  names_unique fs ∧ no_dangling fs ∧ itable fs !! 0 = None.

(** One call of one of the four operations, with any arguments and any
    outcome. *)
Inductive wtfs_step (fs fs' : wtfs) : Prop :=
  | step_create dir de mode excl de' ret :
      wtfs_create fs dir de mode excl = (fs', de', ret) → wtfs_step fs fs'
  | step_lookup dir de flags de' r :
      wtfs_lookup fs dir de flags = (fs', de', r) → wtfs_step fs fs'
  | step_unlink dir de ret :
      wtfs_unlink fs dir de = Some (fs', ret) → wtfs_step fs fs'
  | step_mkdir dir de mode de' ret :
      wtfs_mkdir fs dir de mode = (fs', de', ret) → wtfs_step fs fs'.

(** ** The operations at work *)

Example create_in_root :
  wtfs_create fs0 1 (neg "a") 0x1A4 false
  = (Wtfs (SuperBlock 8 8 16 200)
          {[ 1 := Inode (Z.lor S_IFDIR 0x1ED) 1 1 100
                        [(".", 1); ("..", 1); ("a", 2)] "";
             2 := Inode (Z.lor S_IFREG 0x1A4) 1 1 200 [] "" ]},
     Dentry "a" (Some 2) false, 0).
Proof. vm_compute. reflexivity. Qed.

Example mkdir_in_root :
  wtfs_mkdir fs0 1 (neg "sub") 0x1ED
  = (Wtfs (SuperBlock 8 8 16 200)
          {[ 1 := Inode (Z.lor S_IFDIR 0x1ED) 1 1 100
                        [(".", 1); ("..", 1); ("sub", 2)] "";
             2 := Inode (Z.lor S_IFDIR 0x1ED) 1 1 200
                        [(".", 2); ("..", 1)] "" ]},
     Dentry "sub" (Some 2) false, 0).
Proof. vm_compute. reflexivity. Qed.

Example mkdir_in_full_root :
  wtfs_mkdir (fs_room 2) 1 (neg "sub") 0x1ED = (fs_room 2, neg "sub", - ENOSPC).
Proof. vm_compute. reflexivity. Qed.

Example lookup_in_tree :
  (wtfs_lookup fs_tree 1 (neg "a") 0).1.2 = Dentry "a" (Some 3) true
  ∧ (wtfs_lookup fs_tree 1 (neg "b") 0).1.2 = Dentry "b" None true.
Proof. split; reflexivity. Qed.

Example unlink_in_tree :
  wtfs_unlink fs_tree 1 (Dentry "a" (Some 3) true)
  = Some (Wtfs (SuperBlock 8 8 16 200)
            {[ 1 := Inode (Z.lor S_IFDIR 0x1ED) 1 1 100
                          [(".", 1); ("..", 1); ("sub", 2)] "";
               2 := Inode (Z.lor S_IFDIR 0x1ED) 1 1 200
                          [(".", 2); ("..", 1)] "";
               3 := Inode (Z.lor S_IFREG 0x1A4) 0 1 100 [] "" ]}, 0)
  ∧ wtfs_unlink fs_tree 1 (Dentry "a" None true) = None.
Proof. split; [vm_compute|]; reflexivity. Qed.

(** ** Facts about the helpers *)

Section HelperFacts.
Implicit Types (fs : wtfs) (dir ino vi : Z) (name : string)
               (l : list (string * Z)).

Lemma with_itable_id fs : with_itable fs (itable fs) = fs.
Proof. by destruct fs. Qed.

Lemma itable_with_itable fs m : itable (with_itable fs m) = m.
Proof. done. Qed.

Lemma substring_all (s : string) : substring 0 (String.length s) s = s.
Proof. induction s as [|c s IH]; simpl; [done | by rewrite IH]. Qed.

(** The allocator hands out a non-zero identifier that is not in use. *)
Lemma alloc_free_inode_fresh fs ino :
  wtfs_alloc_free_inode fs = Some ino → itable fs !! ino = None ∧ ino ≠ 0.
Proof.
  unfold wtfs_alloc_free_inode. intros H.
  destruct (list_find _ _) as [[k x]|] eqn:E; simplify_eq/=.
  apply list_find_Some in E as (Hk & Hx & _).
  apply lookup_seqZ in Hk as [-> _]. split; [done | lia].
Qed.

Lemma new_inode_Ptr fs dir mode fs1 vi :
  wtfs_new_inode fs dir mode None 0 = (fs1, Ptr vi) →
  wtfs_alloc_free_inode fs = Some vi ∧
  fs1 = with_itable fs
          (<[vi := Inode mode 0 1 (s_time (sb fs)) [] ""]> (itable fs)).
Proof.
  unfold wtfs_new_inode. destruct (wtfs_alloc_free_inode fs); intros H;
    by simplify_eq.
Qed.

Lemma find_by_name_absent name l : name ∉ l.*1 → find_by_name name l = 0.
Proof.
  induction l as [|[n i] l IH]; simpl; [done|].
  intros H. apply not_elem_of_cons in H as [Hn Hl].
  case_decide; [congruence | auto].
Qed.

Lemma find_by_name_snoc name ino l :
  name ∉ l.*1 → find_by_name name (l ++ [(name, ino)]) = ino.
Proof.
  induction l as [|[n i] l IH]; simpl.
  - intros _. by case_decide.
  - intros H. apply not_elem_of_cons in H as [Hn Hl].
    case_decide; [congruence | auto].
Qed.

(** A failed add changes nothing. *)
Lemma add_dentry_fail fs dir ino name len fs' ret :
  wtfs_add_dentry fs dir ino name len = (fs', ret) → ret < 0 → fs' = fs.
Proof.
  unfold wtfs_add_dentry. intros H Hret.
  destruct (itable fs !! dir); repeat case_decide; simplify_eq; done || lia.
Qed.

(** A successful add returns 0 and appends one record to the payload. *)
Lemma add_dentry_ok fs dir ino name len fs' ret :
  wtfs_add_dentry fs dir ino name len = (fs', ret) → ¬ ret < 0 →
  ret = 0 ∧ ∃ d, itable fs !! dir = Some d ∧
    (substring 0 len name ∉ (i_dentries d).*1) ∧
    fs' = with_itable fs
            (<[dir := set_dentries
                        (i_dentries d ++ [(substring 0 len name, ino)]) d]>
               (itable fs)).
Proof.
  unfold wtfs_add_dentry, ENOENT, ENAMETOOLONG, EEXIST, ENOSPC.
  intros H Hret.
  destruct (itable fs !! dir) as [d|]; repeat case_decide; simplify_eq;
    try lia.
  split; [done|]. by exists d.
Qed.

(** A failed remove changes nothing. *)
Lemma delete_dentry_fail fs dir name fs' ret :
  wtfs_delete_dentry fs dir name = (fs', ret) → ret < 0 → fs' = fs.
Proof.
  unfold wtfs_delete_dentry. intros H Hret.
  destruct (itable fs !! dir); repeat case_decide; simplify_eq; done || lia.
Qed.

Lemma delete_dentry_ok fs dir name :
  name ∈ (entries_of fs dir).*1 →
  ∃ d, itable fs !! dir = Some d ∧
    (wtfs_delete_dentry fs dir name =
      (with_itable fs
         (<[dir := set_dentries (remove_by_name name (i_dentries d)) d]>
            (itable fs)), 0)).
Proof.
  unfold wtfs_delete_dentry, entries_of.
  destruct (itable fs !! dir) as [d|]; [|by intros ?%elem_of_nil].
  intros H. exists d. by rewrite decide_True.
Qed.

(** Releasing a fresh inode that nothing links to restores the table. *)
Lemma iput_new_inode fs vi i :
  itable fs !! vi = None → i_count i = 1 → i_nlink i = 0 →
  iput (with_itable fs (<[vi := i]> (itable fs))) vi = fs.
Proof.
  intros Hvi Hc Hn. unfold iput. rewrite itable_with_itable, lookup_insert_eq.
  rewrite !decide_True by lia. unfold release_inode, with_itable; simpl.
  rewrite delete_insert_id by done. by destruct fs.
Qed.

Lemma new_inode_ErrPtr fs dir mode fs1 e :
  wtfs_new_inode fs dir mode None 0 = (fs1, ErrPtr e) → e < 0 ∧ fs1 = fs.
Proof.
  unfold wtfs_new_inode, ENOSPC.
  destruct (wtfs_alloc_free_inode fs); intros H; simplify_eq. by split.
Qed.

(** An add, failed or not, touches the payload of [dir] only. *)
Lemma add_dentry_nlink fs dir ino name len fs' ret j :
  wtfs_add_dentry fs dir ino name len = (fs', ret) →
  nlink_of fs' j = nlink_of fs j.
Proof.
  unfold wtfs_add_dentry, nlink_of. intros H.
  destruct (itable fs !! dir) as [d|] eqn:Hd; repeat case_decide;
    simplify_eq; try done.
  simpl. destruct (decide (j = dir)) as [->|Hne].
  - by rewrite lookup_insert_eq, Hd.
  - by rewrite lookup_insert_ne.
Qed.

Lemma add_dentry_kind fs dir ino name len fs' ret j :
  wtfs_add_dentry fs dir ino name len = (fs', ret) →
  kind_of fs' j = kind_of fs j.
Proof.
  unfold wtfs_add_dentry, kind_of. intros H.
  destruct (itable fs !! dir) as [d|] eqn:Hd; repeat case_decide;
    simplify_eq; try done.
  simpl. destruct (decide (j = dir)) as [->|Hne].
  - by rewrite lookup_insert_eq, Hd.
  - by rewrite lookup_insert_ne.
Qed.

Lemma add_dentry_entries_ne fs dir ino name len fs' ret j :
  wtfs_add_dentry fs dir ino name len = (fs', ret) → j ≠ dir →
  entries_of fs' j = entries_of fs j.
Proof.
  unfold wtfs_add_dentry, entries_of. intros H Hne.
  destruct (itable fs !! dir) as [d|] eqn:Hd; repeat case_decide;
    simplify_eq; try done.
  simpl. by rewrite lookup_insert_ne.
Qed.

Lemma add_dentry_entries fs dir ino name len fs' ret :
  wtfs_add_dentry fs dir ino name len = (fs', ret) → ¬ ret < 0 →
  is_Some (itable fs !! dir) ∧
  (substring 0 len name ∉ (entries_of fs dir).*1) ∧
  entries_of fs' dir = entries_of fs dir ++ [(substring 0 len name, ino)].
Proof.
  intros H Hret.
  destruct (add_dentry_ok _ _ _ _ _ _ _ H Hret) as (_ & d & Hd & Hfresh & ->).
  unfold entries_of. simpl. rewrite Hd, lookup_insert_eq. by eauto.
Qed.

(** The link-count increment, observed. *)
Lemma inc_link_count_nlink fs vi :
  nlink_of (inode_inc_link_count fs vi) vi
  = (λ n, (n + 1) mod UINT_MOD) <$> nlink_of fs vi.
Proof.
  unfold nlink_of, inode_inc_link_count. simpl.
  rewrite lookup_alter, decide_True by done. by destruct (itable fs !! vi).
Qed.

Lemma inc_link_count_nlink_ne fs vi j :
  j ≠ vi → nlink_of (inode_inc_link_count fs vi) j = nlink_of fs j.
Proof.
  intros Hne. unfold nlink_of, inode_inc_link_count. simpl.
  by rewrite lookup_alter, decide_False.
Qed.

Lemma inc_link_count_kind fs vi j :
  kind_of (inode_inc_link_count fs vi) j = kind_of fs j.
Proof.
  unfold kind_of, inode_inc_link_count. simpl.
  rewrite lookup_alter. case_decide; subst; by destruct (itable fs !! _).
Qed.

Lemma inc_link_count_entries fs vi j :
  entries_of (inode_inc_link_count fs vi) j = entries_of fs j.
Proof.
  unfold entries_of, inode_inc_link_count. simpl.
  rewrite lookup_alter. case_decide; subst; by destruct (itable fs !! _).
Qed.

(** A lookup that finds a live inode binds the dentry to it and takes a
    reference; link count and kind are those of the table. *)
Lemma lookup_found fs dir de flags ino :
  wtfs_find_dentry fs dir (d_name de) = ino → ino ≠ 0 →
  is_Some (itable fs !! ino) →
  ∃ fs', wtfs_lookup fs dir de flags = (fs', d_add de (Some ino), None)
    ∧ (∀ j, nlink_of fs' j = nlink_of fs j)
    ∧ (∀ j, kind_of fs' j = kind_of fs j).
Proof.
  intros Hfind Hnz [i Hi]. unfold wtfs_lookup, wtfs_iget.
  rewrite Hfind, decide_True, Hi by done.
  eexists; split; [reflexivity|].
  split; intros j; unfold nlink_of, kind_of; simpl;
    (destruct (decide (j = ino)) as [->|Hne];
     [by rewrite lookup_insert_eq, Hi | by rewrite lookup_insert_ne]).
Qed.

(** Type bits of a mode with the type or-ed in. *)
Lemma kind_of_mode_lor t mode k :
  mode_fits t mode → Z.land t S_IFMT = t → kind_of_mode t = Some k →
  kind_of_mode (Z.lor mode t) = Some k.
Proof.
  intros Hfit Ht Hk. unfold kind_of_mode in *. cbv zeta in *.
  rewrite Ht in Hk. rewrite Z.land_lor_distr_l, Ht.
  destruct Hfit as [-> | ->].
  - by rewrite Z.lor_0_l.
  - by rewrite Z.lor_diag.
Qed.

(** An add into the inode just inserted under [vi] rewrites that entry. *)
Lemma add_dentry_self fs m vi i ino name len fs' ret :
  wtfs_add_dentry (with_itable fs (<[vi := i]> m)) vi ino name len
    = (fs', ret) →
  ¬ ret < 0 →
  fs' = with_itable fs
          (<[vi := set_dentries
                      (i_dentries i ++ [(substring 0 len name, ino)]) i]> m).
Proof.
  intros H Hret.
  destruct (add_dentry_ok _ _ _ _ _ _ _ H Hret) as (_ & d & Hd & _ & ->).
  simpl in *. rewrite lookup_insert_eq in Hd. simplify_eq.
  unfold with_itable; simpl. by rewrite insert_insert_eq.
Qed.

(** What a successful mkdir went through. *)
Lemma mkdir_ok_inv fs dir de mode fs' de' :
  wtfs_mkdir fs dir de mode = (fs', de', 0) →
  ∃ vi fs4,
    wtfs_alloc_free_inode fs = Some vi ∧
    wtfs_add_dentry
      (with_itable fs
         (<[vi := Inode (Z.lor mode S_IFDIR) 0 1 (s_time (sb fs))
                        [(".", vi); ("..", dir)] ""]> (itable fs)))
      dir vi (d_name de) (String.length (d_name de)) = (fs4, 0) ∧
    fs' = inode_inc_link_count fs4 vi ∧ de' = d_instantiate de vi.
Proof.
  unfold wtfs_mkdir. intros H.
  destruct (wtfs_new_inode _ _ _ _ _) as [fs1 [vi|e]] eqn:Hnew.
  2:{ apply new_inode_ErrPtr in Hnew as [He _]. simplify_eq. lia. }
  apply new_inode_Ptr in Hnew as [Halloc ->].
  destruct (wtfs_add_dentry _ vi vi _ _) as [fs2 r1] eqn:Hadd1.
  case_decide as Hr1; [simplify_eq; lia|].
  apply add_dentry_self in Hadd1 as ->; [|done].
  destruct (wtfs_add_dentry _ vi dir _ _) as [fs3 r2] eqn:Hadd2.
  case_decide as Hr2; [simplify_eq; lia|].
  apply add_dentry_self in Hadd2 as ->; [|done].
  destruct (wtfs_add_dentry _ dir vi _ _) as [fs4 r3] eqn:Hadd3.
  case_decide as Hr3; simplify_eq; [lia|].
  destruct (add_dentry_ok _ _ _ _ _ _ _ Hadd3 Hr3) as [-> _].
  by exists vi, fs4.
Qed.

(** Counting the records that name an inode. *)
Lemma refs_in_app ino l l' :
  refs_in ino (l ++ l') = (refs_in ino l + refs_in ino l')%nat.
Proof. unfold refs_in. by rewrite filter_app, length_app. Qed.

Lemma refs_in_nil ino : refs_in ino [] = 0%nat.
Proof. done. Qed.

Lemma refs_in_cons_eq ino name l :
  refs_in ino ((name, ino) :: l) = S (refs_in ino l).
Proof. unfold refs_in. by rewrite filter_cons_True. Qed.

Lemma refs_in_cons_ne ino name j l :
  j ≠ ino → refs_in ino ((name, j) :: l) = refs_in ino l.
Proof. intros Hne. unfold refs_in. by rewrite filter_cons_False. Qed.

Lemma refs_in_dead fs ino l :
  itable fs !! ino = None →
  Forall (λ e, is_Some (itable fs !! e.2)) l → refs_in ino l = 0%nat.
Proof.
  intros Hdead Hall. unfold refs_in.
  induction Hall as [|e l [i Hi] _ IH]; [done|].
  rewrite filter_cons_False; [done|]. intros Heq. rewrite Heq in Hi. congruence.
Qed.

Lemma link_refs_insert_fresh fs ino k x :
  itable fs !! k = None →
  link_refs (with_itable fs (<[k := x]> (itable fs))) ino
  = (refs_in ino (i_dentries x) + link_refs fs ino)%nat.
Proof.
  intros Hk. unfold link_refs; simpl.
  rewrite map_fold_insert_L; [done| |done]. intros; lia.
Qed.

Lemma link_refs_insert_live fs ino k x x' :
  itable fs !! k = Some x →
  (link_refs (with_itable fs (<[k := x']> (itable fs))) ino
     + refs_in ino (i_dentries x))%nat
  = (link_refs fs ino + refs_in ino (i_dentries x'))%nat.
Proof.
  intros Hk. unfold link_refs; simpl.
  rewrite <-(insert_delete_id (itable fs) k x) at 2 by done.
  rewrite <-(insert_delete_eq (itable fs) k x').
  rewrite !map_fold_insert_L; try (by apply lookup_delete_eq); [lia| |];
    intros; lia.
Qed.

Lemma link_refs_dead fs ino :
  no_dangling fs → itable fs !! ino = None → link_refs fs ino = 0%nat.
Proof.
  unfold no_dangling, link_refs. intros Hall Hdead.
  assert (map_Forall (λ _ i, refs_in ino (i_dentries i) = 0%nat) (itable fs))
    as Hzero.
  { intros k i Hk. eapply refs_in_dead; [done|]. by apply (Hall k). }
  clear Hall Hdead. revert Hzero.
  apply (map_fold_weak_ind
           (λ r m, map_Forall (λ _ i, refs_in ino (i_dentries i) = 0%nat) m
                   → r = 0%nat)); [done|].
  intros k x m r Hk IH Hm. apply map_Forall_insert in Hm as [Hx Hm]; [|done].
  rewrite Hx, IH by done. done.
Qed.

Lemma link_refs_inc_link_count fs vi ino :
  link_refs (inode_inc_link_count fs vi) ino = link_refs fs ino.
Proof.
  unfold inode_inc_link_count.
  destruct (itable fs !! vi) as [i|] eqn:Hi.
  - erewrite <-(insert_id (itable fs) vi i) at 1 by done.
    rewrite alter_insert_eq.
    pose proof (link_refs_insert_live fs ino vi i
      (set_nlink ((i_nlink i + 1) mod UINT_MOD) i) Hi) as H.
    simpl in H. lia.
  - unfold alter, map_alter. rewrite partial_alter_id; [|by rewrite Hi].
    by rewrite with_itable_id.
Qed.
End HelperFacts.

(** ** Properties of the namespace operations *)

(** *** Lookup *)

(** C7: for every directory and every name, looking up a name that no
    record of the directory carries returns NULL (success) with the dentry
    made negative; the state is untouched and no error is raised. *)
Theorem lookup_absent_is_negative (fs : wtfs) (dir : Z) (de : dentry) (flags : Z) :
  d_name de ∉ (entries_of fs dir).*1 →
  wtfs_lookup fs dir de flags = (fs, d_add de None, None)
  ∧ d_inode (d_add de None) = None.
Proof.
  intros Habs. split; [|done].
  unfold wtfs_lookup, wtfs_find_dentry.
  rewrite (find_by_name_absent _ _ Habs). by rewrite decide_False by tauto.
Qed.

Lemma lookup_absent_is_negative_witness :
  wtfs_lookup fs0 1 (neg "nofile") 0 = (fs0, d_add (neg "nofile") None, None)
  ∧ d_inode (d_add (neg "nofile") None) = None.
Proof.
  apply (lookup_absent_is_negative fs0 1 (neg "nofile") 0).
  vm_compute. intros H. repeat (apply elem_of_cons in H as [H|H]; [discriminate|]).
  by apply elem_of_nil in H.
Defined.

(** C10: when the scan finds the name (a non-zero inode number) but the
    inode cannot be instantiated, lookup returns that error as ERR_CAST and
    leaves the dentry as it was handed in, unbound. *)
Theorem lookup_propagates_iget_error (fs : wtfs) (dir : Z) (de : dentry)
    (flags : Z) (fs1 : wtfs) (e : Z) :
  wtfs_find_dentry fs dir (d_name de) ≠ 0 →
  wtfs_iget fs (wtfs_find_dentry fs dir (d_name de)) = (fs1, ErrPtr e) →
  wtfs_lookup fs dir de flags = (fs1, de, Some e).
Proof.
  intros Hfound Hget. unfold wtfs_lookup.
  rewrite decide_True by done. by rewrite Hget.
Qed.

Lemma lookup_propagates_iget_error_witness :
  wtfs_find_dentry fs_ghost 1 "ghost" = 7
  ∧ wtfs_lookup fs_ghost 1 (neg "ghost") 0 = (fs_ghost, neg "ghost", Some (- ENOENT)).
Proof.
  split; [reflexivity|].
  apply (lookup_propagates_iget_error fs_ghost 1 (neg "ghost") 0 fs_ghost (- ENOENT)).
  - vm_compute. discriminate.
  - reflexivity.
Defined.

(** *** Create *)

(** C9: the exclusive-creation flag is never consulted: the result and the
    state after [wtfs_create] are the same for either value of [excl].  A
    name that is already present is therefore rejected for either value,
    and the rejection is the error of the entry-add step. *)
Theorem create_ignores_excl (fs : wtfs) (dir : Z) (de : dentry) (mode : Z)
    (excl1 excl2 : bool) :
  wtfs_create fs dir de mode excl1 = wtfs_create fs dir de mode excl2
  ∧ ∀ fs1 vi fs2 ret,
      wtfs_new_inode fs dir (Z.lor mode S_IFREG) None 0 = (fs1, Ptr vi) →
      wtfs_add_dentry fs1 dir vi (d_name de) (String.length (d_name de))
        = (fs2, ret) →
      ret < 0 →
      (wtfs_create fs dir de mode excl1).2 = ret.
Proof.
  split; [reflexivity|].
  intros fs1 vi fs2 ret Hnew Hadd Hret. unfold wtfs_create.
  rewrite Hnew, Hadd. by rewrite decide_True.
Qed.

(** C2: when the entry-add step of create fails after the inode was
    allocated, create returns the error of the add step, the new inode
    (whose link count is still 0) is released and its identifier is free
    again, the payload of [dir] has no new record, and the whole state is
    as before the call; the dentry stays unbound. *)
Theorem create_add_failure_releases_inode (fs : wtfs) (dir : Z) (de : dentry)
    (mode : Z) (excl : bool) (fs1 : wtfs) (vi : Z) (fs2 : wtfs) (ret : Z) :
  wtfs_new_inode fs dir (Z.lor mode S_IFREG) None 0 = (fs1, Ptr vi) →
  wtfs_add_dentry fs1 dir vi (d_name de) (String.length (d_name de))
    = (fs2, ret) →
  ret < 0 →
  ∃ fs', wtfs_create fs dir de mode excl = (fs', de, ret)
    ∧ nlink_of fs2 vi = Some 0
    ∧ itable fs' !! vi = None
    ∧ wtfs_alloc_free_inode fs' = Some vi
    ∧ entries_of fs' dir = entries_of fs dir
    ∧ fs' = fs.
Proof.
  intros Hnew Hadd Hret.
  destruct (new_inode_Ptr _ _ _ _ _ Hnew) as [Halloc ->].
  destruct (alloc_free_inode_fresh _ _ Halloc) as [Hfresh _].
  pose proof (add_dentry_fail _ _ _ _ _ _ _ Hadd Hret) as ->.
  exists fs. unfold wtfs_create. rewrite Hnew, Hadd, decide_True by done.
  rewrite iput_new_inode by done.
  repeat split; try done.
  unfold nlink_of. by rewrite itable_with_itable, lookup_insert_eq.
Qed.

Lemma create_add_failure_releases_inode_witness :
  ∃ fs', wtfs_create (fs_room 2) 1 (neg "a") 0x1A4 false
           = (fs', neg "a", - ENOSPC)
    ∧ nlink_of (with_itable (fs_room 2)
                  (<[2 := Inode (Z.lor 0x1A4 S_IFREG) 0 1 200 [] ""]>
                     (itable (fs_room 2)))) 2 = Some 0
    ∧ itable fs' !! 2 = None
    ∧ wtfs_alloc_free_inode fs' = Some 2
    ∧ entries_of fs' 1 = entries_of (fs_room 2) 1
    ∧ fs' = fs_room 2.
Proof.
  apply (create_add_failure_releases_inode (fs_room 2) 1 (neg "a") 0x1A4 false
           (with_itable (fs_room 2)
              (<[2 := Inode (Z.lor 0x1A4 S_IFREG) 0 1 200 [] ""]>
                 (itable (fs_room 2)))) 2).
  - reflexivity.
  - reflexivity.
  - vm_compute. reflexivity.
Defined.

(** *** Unlink *)

(** C8: when the entry-remove step fails, unlink returns its error before
    it touches the target inode: the link count and the ctime of the target
    are as before (and so is the whole state). *)
Theorem unlink_remove_failure_is_atomic (fs : wtfs) (dir : Z) (de : dentry)
    (vi : Z) (fs1 : wtfs) (ret : Z) :
  d_inode de = Some vi →
  wtfs_delete_dentry fs dir (d_name de) = (fs1, ret) →
  ret < 0 →
  ∃ fs', wtfs_unlink fs dir de = Some (fs', ret)
    ∧ nlink_of fs' vi = nlink_of fs vi
    ∧ ctime_of fs' vi = ctime_of fs vi
    ∧ fs' = fs.
Proof.
  intros Hvi Hdel Hret.
  pose proof (delete_dentry_fail _ _ _ _ _ Hdel Hret) as ->.
  exists fs. unfold wtfs_unlink. rewrite Hvi; simpl.
  rewrite Hdel. by rewrite decide_True.
Qed.

Lemma unlink_remove_failure_is_atomic_witness :
  ∃ fs', wtfs_unlink fs_tree 1 (Dentry "gone" (Some 3) true)
           = Some (fs', - ENOENT)
    ∧ nlink_of fs' 3 = nlink_of fs_tree 3
    ∧ ctime_of fs' 3 = ctime_of fs_tree 3
    ∧ fs' = fs_tree.
Proof.
  apply (unlink_remove_failure_is_atomic fs_tree 1 (Dentry "gone" (Some 3) true)
           3 fs_tree (- ENOENT)).
  - reflexivity.
  - reflexivity.
  - vm_compute. reflexivity.
Defined.

(** C5, as the code has it: unlink makes no check of the target's kind.
    For a target that is a directory and a name that is in [dir], it
    returns 0, removes the record from [dir], decrements the target's link
    count and sets the target's ctime to that of [dir]. *)
Theorem unlink_directory_is_not_rejected (fs : wtfs) (dir : Z) (de : dentry)
    (vi : Z) :
  d_inode de = Some vi →
  kind_of fs vi = Some Directory →
  d_name de ∈ (entries_of fs dir).*1 →
  ∃ fs', wtfs_unlink fs dir de = Some (fs', 0)
    ∧ entries_of fs' dir = remove_by_name (d_name de) (entries_of fs dir)
    ∧ nlink_of fs' vi = (λ n, (n - 1) mod UINT_MOD) <$> nlink_of fs vi
    ∧ ctime_of fs' vi = ctime_of fs dir.
Proof.
  intros Hvi Hkind Hin.
  destruct (delete_dentry_ok _ _ _ Hin) as (d & Hd & Hdel).
  unfold wtfs_unlink. rewrite Hvi; simpl. rewrite Hdel.
  rewrite decide_False by lia. eexists; split; [reflexivity|].
  unfold kind_of in Hkind.
  destruct (itable fs !! vi) as [i|] eqn:Hi; [|done].
  unfold entries_of, nlink_of, ctime_of, inode_dec_link_count; simpl.
  rewrite Hd, Hi, lookup_insert_eq; simpl.
  rewrite !lookup_alter.
  destruct (decide (vi = dir)) as [->|Hne]; repeat case_decide; try done.
  - rewrite lookup_insert_eq; simpl. by simplify_eq.
  - rewrite lookup_insert_eq, lookup_insert_ne, Hi by done. done.
Qed.

Lemma unlink_directory_is_not_rejected_witness :
  ∃ fs', wtfs_unlink fs_tree 1 (Dentry "sub" (Some 2) true) = Some (fs', 0)
    ∧ entries_of fs' 1 = remove_by_name "sub" (entries_of fs_tree 1)
    ∧ nlink_of fs' 2 = (λ n, (n - 1) mod UINT_MOD) <$> nlink_of fs_tree 2
    ∧ ctime_of fs' 2 = ctime_of fs_tree 1.
Proof.
  apply (unlink_directory_is_not_rejected fs_tree 1
           (Dentry "sub" (Some 2) true) 2).
  - reflexivity.
  - vm_compute. reflexivity.
  - apply (bool_decide_unpack _). vm_compute. exact I.
Defined.

(** C5 as stated fails: unlinking the directory "sub" of [fs_tree] returns
    0, not an error; the record is gone from the root directory, the link
    count of the target went from 1 to 0 and its ctime from 200 to 100. *)
Lemma unlink_directory_counterexample :
  kind_of fs_tree 2 = Some Directory
  ∧ wtfs_find_dentry fs_tree 1 "sub" = 2
  ∧ ∃ fs', wtfs_unlink fs_tree 1 (Dentry "sub" (Some 2) true) = Some (fs', 0)
      ∧ wtfs_find_dentry fs' 1 "sub" = 0
      ∧ nlink_of fs_tree 2 = Some 1 ∧ nlink_of fs' 2 = Some 0
      ∧ ctime_of fs_tree 2 = Some 200 ∧ ctime_of fs' 2 = Some 100.
Proof.
  split; [vm_compute; reflexivity|]. split; [reflexivity|].
  eexists. split; [reflexivity|]. vm_compute. by repeat split.
Qed.

(** *** Create, then lookup *)

(** C1: after a successful create with a valid mode, a lookup of the same
    name in the same directory succeeds and the inode of the dentry it
    returns is the inode that create made, whose link count is 1 and whose
    kind is regular file.  (That the name was absent before follows from
    the success of the add step and is not needed as a hypothesis.) *)
Theorem create_then_lookup (fs : wtfs) (dir : Z) (de : dentry) (mode : Z)
    (excl : bool) (fs1 : wtfs) (de1 de2 : dentry) (flags : Z) :
  mode_fits S_IFREG mode →
  wtfs_create fs dir de mode excl = (fs1, de1, 0) →
  d_name de2 = d_name de →
  ∃ fs2 vi, wtfs_lookup fs1 dir de2 flags = (fs2, d_add de2 (Some vi), None)
    ∧ d_inode (wtfs_lookup fs1 dir de2 flags).1.2 = Some vi
    ∧ d_inode de1 = Some vi
    ∧ nlink_of fs2 vi = Some 1
    ∧ kind_of fs2 vi = Some RegularFile.
Proof.
  intros Hmode Hcreate Hname. unfold wtfs_create in Hcreate.
  destruct (wtfs_new_inode _ _ _ _ _) as [fsa [vi|e]] eqn:Hnew.
  2:{ apply new_inode_ErrPtr in Hnew as [He _]. simplify_eq. lia. }
  destruct (wtfs_add_dentry _ _ _ _ _) as [fsb ret] eqn:Hadd.
  case_decide as Hret; simplify_eq; [lia|].
  apply new_inode_Ptr in Hnew as [Halloc ->].
  apply alloc_free_inode_fresh in Halloc as [Hfresh Hnz].
  destruct (add_dentry_entries _ _ _ _ _ _ _ Hadd Hret) as (_ & Habs & Hent).
  rewrite substring_all in Habs, Hent.
  (* the new inode as the add step leaves it *)
  assert (nlink_of fsb vi = Some 0) as Hn.
  { rewrite (add_dentry_nlink _ _ _ _ _ _ _ vi Hadd). unfold nlink_of; simpl.
    by rewrite lookup_insert_eq. }
  assert (kind_of fsb vi = Some RegularFile) as Hk.
  { rewrite (add_dentry_kind _ _ _ _ _ _ _ vi Hadd). unfold kind_of; simpl.
    rewrite lookup_insert_eq; simpl. by apply kind_of_mode_lor. }
  destruct (lookup_found (inode_inc_link_count fsb vi) dir de2 flags vi)
    as (fs2 & Hlook & Hnl & Hkd).
  - unfold wtfs_find_dentry.
    rewrite inc_link_count_entries, Hent, Hname. by apply find_by_name_snoc.
  - done.
  - rewrite <-(fmap_is_Some i_nlink). fold (nlink_of (inode_inc_link_count fsb vi) vi).
    rewrite inc_link_count_nlink, Hn. by eexists.
  - exists fs2, vi. split; [done|]. split; [by rewrite Hlook|].
    split; [done|].
    rewrite Hnl, Hkd, inc_link_count_nlink, inc_link_count_kind, Hn. by split.
Qed.

Lemma create_then_lookup_witness :
  ∃ fs2 vi,
    wtfs_lookup (wtfs_create fs0 1 (neg "a") 0x1A4 true).1.1 1 (neg "a") 0
      = (fs2, d_add (neg "a") (Some vi), None)
    ∧ d_inode (wtfs_lookup (wtfs_create fs0 1 (neg "a") 0x1A4 true).1.1
                 1 (neg "a") 0).1.2 = Some vi
    ∧ d_inode (d_instantiate (neg "a") 2) = Some vi
    ∧ nlink_of fs2 vi = Some 1
    ∧ kind_of fs2 vi = Some RegularFile.
Proof.
  apply (create_then_lookup fs0 1 (neg "a") 0x1A4 true
           (wtfs_create fs0 1 (neg "a") 0x1A4 true).1.1
           (d_instantiate (neg "a") 2) (neg "a") 0).
  - left. reflexivity.
  - reflexivity.
  - reflexivity.
Defined.

(** *** Mkdir *)

(** C3: when one of the three entry-add steps of mkdir fails, mkdir
    returns that error; the new inode is released, no record written to it
    remains, the payload of [dir] is as before and so is the whole state;
    the dentry stays unbound. *)
Theorem mkdir_add_failure_rolls_back (fs : wtfs) (dir : Z) (de : dentry)
    (mode : Z) (vi : Z) (ret : Z) :
  mkdir_add_fails fs dir de mode vi ret →
  ∃ fs', wtfs_mkdir fs dir de mode = (fs', de, ret)
    ∧ itable fs' !! vi = None
    ∧ entries_of fs' vi = []
    ∧ entries_of fs' dir = entries_of fs dir
    ∧ fs' = fs.
Proof.
  intros Hfail. exists fs.
  assert (itable fs !! vi = None) as Hfresh.
  { destruct Hfail as [? ? Hnew| ? ? ? ? Hnew| ? ? ? ? ? ? Hnew];
      apply new_inode_Ptr in Hnew as [Halloc _];
      by apply alloc_free_inode_fresh in Halloc as [? _]. }
  split; [|repeat split; try done; unfold entries_of; by rewrite Hfresh].
  unfold wtfs_mkdir.
  destruct Hfail as [fs1 fs2 Hnew Hadd1 Hret
                    |fs1 fs2 r1 fs3 Hnew Hadd1 Hr1 Hadd2 Hret
                    |fs1 fs2 r1 fs3 r2 fs4 Hnew Hadd1 Hr1 Hadd2 Hr2 Hadd3 Hret];
    rewrite Hnew; apply new_inode_Ptr in Hnew as [_ ->].
  - rewrite Hadd1, decide_True by done.
    apply add_dentry_fail in Hadd1 as ->; [|done].
    by rewrite iput_new_inode.
  - rewrite Hadd1, decide_False, Hadd2, decide_True by done.
    apply add_dentry_self in Hadd1 as ->; [|done].
    apply add_dentry_fail in Hadd2 as ->; [|done].
    by rewrite iput_new_inode.
  - rewrite Hadd1, decide_False, Hadd2, decide_False, Hadd3, decide_True
      by done.
    apply add_dentry_self in Hadd1 as ->; [|done].
    apply add_dentry_self in Hadd2 as ->; [|done].
    apply add_dentry_fail in Hadd3 as ->; [|done].
    by rewrite iput_new_inode.
Qed.

Lemma mkdir_add_failure_rolls_back_witness :
  (∃ fs', wtfs_mkdir (fs_room 0) 1 (neg "sub") 0x1ED = (fs', neg "sub", - ENOSPC)
     ∧ itable fs' !! 2 = None ∧ entries_of fs' 2 = []
     ∧ entries_of fs' 1 = entries_of (fs_room 0) 1 ∧ fs' = fs_room 0)
  ∧ (∃ fs', wtfs_mkdir (fs_room 1) 1 (neg "sub") 0x1ED = (fs', neg "sub", - ENOSPC)
     ∧ itable fs' !! 2 = None ∧ entries_of fs' 2 = []
     ∧ entries_of fs' 1 = entries_of (fs_room 1) 1 ∧ fs' = fs_room 1)
  ∧ (∃ fs', wtfs_mkdir fs0 1 (neg "..") 0x1ED = (fs', neg "..", - EEXIST)
     ∧ itable fs' !! 2 = None ∧ entries_of fs' 2 = []
     ∧ entries_of fs' 1 = entries_of fs0 1 ∧ fs' = fs0).
Proof.
  split; [|split].
  - apply (mkdir_add_failure_rolls_back (fs_room 0) 1 (neg "sub") 0x1ED 2).
    eapply fail_dot; [reflexivity | reflexivity | vm_compute; reflexivity].
  - apply (mkdir_add_failure_rolls_back (fs_room 1) 1 (neg "sub") 0x1ED 2).
    eapply fail_dotdot;
      [reflexivity | reflexivity | vm_compute; discriminate
      | reflexivity | vm_compute; reflexivity].
  - apply (mkdir_add_failure_rolls_back fs0 1 (neg "..") 0x1ED 2).
    eapply fail_name;
      [reflexivity | reflexivity | vm_compute; discriminate
      | reflexivity | vm_compute; discriminate
      | reflexivity | vm_compute; reflexivity].
Defined.

(** C6: after a successful mkdir in a live directory [dir], the new
    directory (which was not in the table before the call) holds in its own
    payload exactly the two records '.' and '..', written during the call;
    a lookup of "." in the new directory returns a dentry whose inode is
    the new directory itself, a lookup of ".." one whose inode is [dir],
    and the link count of [dir] is what it was before the call. *)
Theorem mkdir_dot_and_dotdot (fs : wtfs) (dir : Z) (de : dentry) (mode : Z)
    (fs1 : wtfs) (de1 : dentry) (d_dot d_dotdot : dentry) (flags : Z) :
  dir ≠ 0 → is_Some (itable fs !! dir) →
  wtfs_mkdir fs dir de mode = (fs1, de1, 0) →
  d_name d_dot = "." → d_name d_dotdot = ".." →
  ∃ sub, d_inode de1 = Some sub
    ∧ itable fs !! sub = None
    ∧ entries_of fs1 sub = [(".", sub); ("..", dir)]
    ∧ (∃ fs2, wtfs_lookup fs1 sub d_dot flags
               = (fs2, d_add d_dot (Some sub), None))
    ∧ d_inode (wtfs_lookup fs1 sub d_dot flags).1.2 = Some sub
    ∧ (∃ fs2, wtfs_lookup fs1 sub d_dotdot flags
               = (fs2, d_add d_dotdot (Some dir), None))
    ∧ d_inode (wtfs_lookup fs1 sub d_dotdot flags).1.2 = Some dir
    ∧ nlink_of fs1 dir = nlink_of fs dir.
Proof.
  intros Hnz Hlive Hmk Hdot Hdotdot.
  apply mkdir_ok_inv in Hmk as (vi & fs4 & Halloc & Hadd & -> & ->).
  apply alloc_free_inode_fresh in Halloc as [Hfresh Hvnz].
  assert (vi ≠ dir) as Hne by (intros ->; rewrite Hfresh in Hlive; by destruct Hlive).
  exists vi. split; [done|]. split; [done|].
  assert (entries_of (inode_inc_link_count fs4 vi) vi = [(".", vi); ("..", dir)])
    as Hent.
  { rewrite inc_link_count_entries.
    rewrite (add_dentry_entries_ne _ _ _ _ _ _ _ vi Hadd) by done.
    unfold entries_of; simpl. by rewrite lookup_insert_eq. }
  assert (nlink_of (inode_inc_link_count fs4 vi) dir = nlink_of fs dir) as Hnd.
  { rewrite inc_link_count_nlink_ne by done.
    rewrite (add_dentry_nlink _ _ _ _ _ _ _ dir Hadd).
    unfold nlink_of; simpl. by rewrite lookup_insert_ne. }
  assert (nlink_of (inode_inc_link_count fs4 vi) vi = Some 1) as Hnv.
  { rewrite inc_link_count_nlink, (add_dentry_nlink _ _ _ _ _ _ _ vi Hadd).
    unfold nlink_of; simpl. by rewrite lookup_insert_eq. }
  split; [done|].
  destruct (lookup_found (inode_inc_link_count fs4 vi) vi d_dot flags vi)
    as (fs2 & Hlook1 & _); [| done | |].
  { unfold wtfs_find_dentry. by rewrite Hent, Hdot. }
  { rewrite <-(fmap_is_Some i_nlink).
    fold (nlink_of (inode_inc_link_count fs4 vi) vi). by rewrite Hnv. }
  destruct (lookup_found (inode_inc_link_count fs4 vi) vi d_dotdot flags dir)
    as (fs3 & Hlook2 & _); [| done | |].
  { unfold wtfs_find_dentry. by rewrite Hent, Hdotdot. }
  { rewrite <-(fmap_is_Some i_nlink).
    fold (nlink_of (inode_inc_link_count fs4 vi) dir). rewrite Hnd.
    unfold nlink_of. by rewrite fmap_is_Some. }
  split; [by exists fs2|]. split; [by rewrite Hlook1|].
  split; [by exists fs3|]. split; [by rewrite Hlook2|]. done.
Qed.

Lemma mkdir_dot_and_dotdot_witness :
  ∃ sub, d_inode (d_instantiate (neg "sub") 2) = Some sub
    ∧ itable fs0 !! sub = None
    ∧ entries_of (wtfs_mkdir fs0 1 (neg "sub") 0x1ED).1.1 sub
      = [(".", sub); ("..", 1)]
    ∧ (∃ fs2, wtfs_lookup (wtfs_mkdir fs0 1 (neg "sub") 0x1ED).1.1 sub (neg ".") 0
               = (fs2, d_add (neg ".") (Some sub), None))
    ∧ d_inode (wtfs_lookup (wtfs_mkdir fs0 1 (neg "sub") 0x1ED).1.1
                 sub (neg ".") 0).1.2 = Some sub
    ∧ (∃ fs2, wtfs_lookup (wtfs_mkdir fs0 1 (neg "sub") 0x1ED).1.1 sub (neg "..") 0
               = (fs2, d_add (neg "..") (Some 1), None))
    ∧ d_inode (wtfs_lookup (wtfs_mkdir fs0 1 (neg "sub") 0x1ED).1.1
                 sub (neg "..") 0).1.2 = Some 1
    ∧ nlink_of (wtfs_mkdir fs0 1 (neg "sub") 0x1ED).1.1 1 = nlink_of fs0 1.
Proof.
  apply (mkdir_dot_and_dotdot fs0 1 (neg "sub") 0x1ED
           (wtfs_mkdir fs0 1 (neg "sub") 0x1ED).1.1
           (d_instantiate (neg "sub") 2) (neg ".") (neg "..") 0).
  - lia.
  - vm_compute. eexists. reflexivity.
  - reflexivity.
  - reflexivity.
  - reflexivity.
Defined.

(** C4, as the code has it: after a successful mkdir the link count of the
    new directory is 1, the one increment that follows the add of the
    parent's record.  In a file system without dangling records and with
    [dir] live, two records name the new directory (the parent's record and
    its own '.'), so the '.' self-reference is not counted. *)
Theorem mkdir_link_count_is_one (fs : wtfs) (dir : Z) (de : dentry) (mode : Z)
    (fs' : wtfs) (de' : dentry) :
  wtfs_mkdir fs dir de mode = (fs', de', 0) →
  ∃ sub, d_inode de' = Some sub
    ∧ nlink_of fs' sub = Some 1
    ∧ (no_dangling fs → is_Some (itable fs !! dir) →
       link_refs fs' sub = 2%nat).
Proof.
  intros Hmk.
  apply mkdir_ok_inv in Hmk as (vi & fs4 & Halloc & Hadd & -> & ->).
  apply alloc_free_inode_fresh in Halloc as [Hfresh Hvnz].
  exists vi. split; [done|]. split.
  { rewrite inc_link_count_nlink, (add_dentry_nlink _ _ _ _ _ _ _ vi Hadd).
    unfold nlink_of; simpl. by rewrite lookup_insert_eq. }
  intros Hwf [d Hd].
  assert (vi ≠ dir) as Hne by congruence.
  rewrite link_refs_inc_link_count.
  destruct (add_dentry_ok _ _ _ _ _ _ _ Hadd) as (_ & d' & Hd' & _ & ->); [lia|].
  simpl in Hd'. rewrite lookup_insert_ne, Hd in Hd' by done. simplify_eq.
  match goal with
  | |- link_refs (with_itable ?S (<[dir := ?x']> _)) vi = _ =>
      pose proof (link_refs_insert_live S vi dir d' x') as Hlive
  end.
  simpl in Hlive. rewrite lookup_insert_ne in Hlive by done.
  specialize (Hlive Hd).
  rewrite (link_refs_insert_fresh fs vi vi) in Hlive by done.
  rewrite (link_refs_dead fs vi Hwf Hfresh) in Hlive.
  rewrite (refs_in_dead fs vi (i_dentries d') Hfresh) in Hlive
    by (by apply (Hwf dir)).
  rewrite refs_in_app, (refs_in_dead fs vi (i_dentries d') Hfresh) in Hlive
    by (by apply (Hwf dir)).
  cbn [i_dentries] in Hlive.
  rewrite !refs_in_cons_eq, refs_in_cons_ne, refs_in_nil in Hlive by done.
  simpl in Hlive |- *. lia.
Qed.

Lemma mkdir_link_count_is_one_witness :
  ∃ sub, d_inode (d_instantiate (neg "sub") 2) = Some sub
    ∧ nlink_of (wtfs_mkdir fs0 1 (neg "sub") 0x1ED).1.1 sub = Some 1
    ∧ (no_dangling fs0 → is_Some (itable fs0 !! 1) →
       link_refs (wtfs_mkdir fs0 1 (neg "sub") 0x1ED).1.1 sub = 2%nat).
Proof.
  apply (mkdir_link_count_is_one fs0 1 (neg "sub") 0x1ED
           (wtfs_mkdir fs0 1 (neg "sub") 0x1ED).1.1
           (d_instantiate (neg "sub") 2)).
  reflexivity.
Defined.

(** C4 as stated fails: [fs0] has no dangling record; mkdir of "sub" in
    its root directory succeeds and makes inode 2; two records name it (the
    root's "sub" and its own "."), yet its link count is 1, not 2. *)
Lemma mkdir_link_count_counterexample :
  no_dangling fs0
  ∧ ∃ fs', wtfs_mkdir fs0 1 (neg "sub") 0x1ED
           = (fs', d_instantiate (neg "sub") 2, 0)
    ∧ entries_of fs' 1 = [(".", 1); ("..", 1); ("sub", 2)]
    ∧ entries_of fs' 2 = [(".", 2); ("..", 1)]
    ∧ link_refs fs' 2 = 2%nat
    ∧ nlink_of fs' 2 = Some 1
    ∧ nlink_of fs' 2 ≠ Some (Z.of_nat (link_refs fs' 2)).
Proof.
  split.
  { apply map_Forall_singleton. repeat constructor; by eexists. }
  eexists. split; [reflexivity|]. vm_compute. by repeat split.
Qed.

(** ** Further facts: what each operation does to the table *)

Section OperationFacts.
Implicit Types (fs : wtfs) (dir ino vi : Z) (name : string)
               (l : list (string * Z)) (de : dentry).

Lemma find_by_name_snoc_ne name n ino l :
  n ≠ name → find_by_name n (l ++ [(name, ino)]) = find_by_name n l.
Proof.
  intros Hne. induction l as [|[n' i] l IH]; simpl.
  - by rewrite decide_False.
  - by rewrite IH.
Qed.

Lemma find_by_name_present name ino l :
  NoDup l.*1 → (name, ino) ∈ l → find_by_name name l = ino.
Proof.
  induction l as [|[n i] l IH]; simpl; [by intros _ ?%elem_of_nil|].
  intros [Hn Hl]%NoDup_cons Hin. apply elem_of_cons in Hin as [Heq|Hin].
  - simplify_eq. by rewrite decide_True.
  - case_decide as Hd; [|by apply IH]. subst n. exfalso. apply Hn.
    apply list_elem_of_fmap. by exists (name, ino).
Qed.

Lemma remove_by_name_snoc name ino l :
  name ∉ l.*1 → remove_by_name name (l ++ [(name, ino)]) = l.
Proof.
  induction l as [|[n i] l IH]; simpl.
  - intros _. by rewrite decide_True.
  - intros [Hn Hl]%not_elem_of_cons. rewrite decide_False by done.
    by rewrite IH.
Qed.

Lemma remove_by_name_sublist name l : remove_by_name name l `sublist_of` l.
Proof.
  induction l as [|[n i] l IH]; simpl; [done|].
  case_decide; [by apply sublist_cons | by apply sublist_skip].
Qed.

Lemma remove_by_name_NoDup name l :
  NoDup l.*1 → NoDup (remove_by_name name l).*1.
Proof.
  intros H. eapply sublist_NoDup; [done|].
  apply fmap_sublist, remove_by_name_sublist.
Qed.

Lemma remove_by_name_gone name l :
  NoDup l.*1 → name ∉ (remove_by_name name l).*1.
Proof.
  induction l as [|[n i] l IH]; simpl; [by intros _ ?%elem_of_nil|].
  intros [Hn Hl]%NoDup_cons. case_decide as Hd.
  - by subst n.
  - simpl. apply not_elem_of_cons. split; [done | by apply IH].
Qed.

(** The two outcomes of create: an error that leaves everything as it
    was, or the allocation, the add and the increment. *)
Lemma create_cases fs dir de mode excl fs' de' ret :
  wtfs_create fs dir de mode excl = (fs', de', ret) →
  (ret < 0 ∧ fs' = fs ∧ de' = de) ∨
  (ret = 0 ∧ ∃ vi fs2,
     wtfs_alloc_free_inode fs = Some vi ∧
     wtfs_add_dentry
       (with_itable fs
          (<[vi := Inode (Z.lor mode S_IFREG) 0 1 (s_time (sb fs)) [] ""]>
             (itable fs)))
       dir vi (d_name de) (String.length (d_name de)) = (fs2, 0) ∧
     fs' = inode_inc_link_count fs2 vi ∧ de' = d_instantiate de vi).
Proof.
  unfold wtfs_create. intros H.
  destruct (wtfs_new_inode _ _ _ _ _) as [fs1 [vi|e]] eqn:Hnew.
  2:{ apply new_inode_ErrPtr in Hnew as [He ->]. simplify_eq. by left. }
  apply new_inode_Ptr in Hnew as [Halloc ->].
  destruct (alloc_free_inode_fresh _ _ Halloc) as [Hfresh _].
  destruct (wtfs_add_dentry _ _ _ _ _) as [fs2 r] eqn:Hadd.
  case_decide as Hr; simplify_eq.
  - left. apply add_dentry_fail in Hadd as ->; [|done].
    by rewrite iput_new_inode.
  - right. destruct (add_dentry_ok _ _ _ _ _ _ _ Hadd Hr) as [-> _].
    split; [done|]. by exists vi, fs2.
Qed.

(** The same for mkdir. *)
Lemma mkdir_cases fs dir de mode fs' de' ret :
  wtfs_mkdir fs dir de mode = (fs', de', ret) →
  (ret < 0 ∧ fs' = fs ∧ de' = de) ∨
  (ret = 0 ∧ ∃ vi fs4,
     wtfs_alloc_free_inode fs = Some vi ∧
     wtfs_add_dentry
       (with_itable fs
          (<[vi := Inode (Z.lor mode S_IFDIR) 0 1 (s_time (sb fs))
                         [(".", vi); ("..", dir)] ""]> (itable fs)))
       dir vi (d_name de) (String.length (d_name de)) = (fs4, 0) ∧
     fs' = inode_inc_link_count fs4 vi ∧ de' = d_instantiate de vi).
Proof.
  intros H. destruct (decide (ret = 0)) as [->|Hret].
  { right. split; [done|]. by apply mkdir_ok_inv. }
  left. revert H. unfold wtfs_mkdir.
  destruct (wtfs_new_inode _ _ _ _ _) as [fs1 [vi|e]] eqn:Hnew.
  2:{ apply new_inode_ErrPtr in Hnew as [He ->]. intros; by simplify_eq. }
  apply new_inode_Ptr in Hnew as [Halloc ->].
  destruct (alloc_free_inode_fresh _ _ Halloc) as [Hfresh _].
  destruct (wtfs_add_dentry _ vi vi _ _) as [fs2 r1] eqn:Hadd1.
  case_decide as Hr1.
  { intros; simplify_eq. apply add_dentry_fail in Hadd1 as ->; [|done].
    by rewrite iput_new_inode. }
  apply add_dentry_self in Hadd1 as ->; [|done].
  destruct (wtfs_add_dentry _ vi dir _ _) as [fs3 r2] eqn:Hadd2.
  case_decide as Hr2.
  { intros; simplify_eq. apply add_dentry_fail in Hadd2 as ->; [|done].
    by rewrite iput_new_inode. }
  apply add_dentry_self in Hadd2 as ->; [|done].
  destruct (wtfs_add_dentry _ dir vi _ _) as [fs4 r3] eqn:Hadd3.
  case_decide as Hr3; intros; simplify_eq.
  apply add_dentry_fail in Hadd3 as ->; [|done].
  by rewrite iput_new_inode.
Qed.

(** The table after the add of the new inode's record to a live [dir]
    and the increment of its link count. *)
Lemma add_then_inc_state fs vi (N : inode) dir name len fs4 :
  itable fs !! vi = None → is_Some (itable fs !! dir) →
  wtfs_add_dentry (with_itable fs (<[vi := N]> (itable fs))) dir vi name len
    = (fs4, 0) →
  ∃ d, itable fs !! dir = Some d ∧ vi ≠ dir ∧
    (substring 0 len name ∉ (i_dentries d).*1) ∧
    inode_inc_link_count fs4 vi
    = with_itable fs
        (<[dir := set_dentries
                    (i_dentries d ++ [(substring 0 len name, vi)]) d]>
           (<[vi := set_nlink ((i_nlink N + 1) mod UINT_MOD) N]> (itable fs))).
Proof.
  intros Hfresh [d Hd] Hadd.
  assert (vi ≠ dir) as Hne by congruence.
  destruct (add_dentry_ok _ _ _ _ _ _ _ Hadd) as (_ & d' & Hd' & Hn & ->);
    [lia|].
  simpl in Hd'. rewrite lookup_insert_ne, Hd in Hd' by done. simplify_eq.
  exists d'. split; [done|]. split; [done|]. split; [done|].
  unfold inode_inc_link_count, with_itable; simpl.
  by rewrite alter_insert_ne, alter_insert_eq by done.
Qed.

(** The outcomes of unlink on a positive dentry. *)
Lemma unlink_cases fs dir de fs' ret :
  wtfs_unlink fs dir de = Some (fs', ret) →
  ∃ vi, d_inode de = Some vi ∧
    ((ret < 0 ∧ fs' = fs) ∨
     (ret = 0 ∧ ∃ d, itable fs !! dir = Some d ∧
        d_name de ∈ (i_dentries d).*1 ∧
        fs' = inode_dec_link_count
                (with_itable fs
                   (alter (set_ctime (i_ctime d)) vi
                      (<[dir := set_dentries
                                  (remove_by_name (d_name de) (i_dentries d)) d]>
                         (itable fs)))) vi)).
Proof.
  unfold wtfs_unlink. destruct (d_inode de) as [vi|]; [|done]. simpl.
  intros H. exists vi. split; [done|]. revert H.
  unfold wtfs_delete_dentry, ENOENT.
  destruct (itable fs !! dir) as [d|] eqn:Hd.
  2:{ rewrite decide_True by lia. intros; simplify_eq. left. split; [lia|done]. }
  destruct (decide (d_name de ∈ (i_dentries d).*1)) as [Hin|Hout].
  - rewrite decide_False by lia. intros; simplify_eq. right.
    split; [done|]. exists d. split; [done|]. split; [done|].
    unfold ctime_of; simpl. by rewrite lookup_insert_eq.
  - rewrite decide_True by lia. intros; simplify_eq. left. split; [lia|done].
Qed.

(** The three outcomes of lookup. *)
Lemma lookup_cases fs dir de flags :
  (wtfs_find_dentry fs dir (d_name de) = 0 ∧
   wtfs_lookup fs dir de flags = (fs, d_add de None, None)) ∨
  (wtfs_find_dentry fs dir (d_name de) ≠ 0 ∧
   itable fs !! wtfs_find_dentry fs dir (d_name de) = None ∧
   wtfs_lookup fs dir de flags = (fs, de, Some (- ENOENT))) ∨
  (wtfs_find_dentry fs dir (d_name de) ≠ 0 ∧
   ∃ i, itable fs !! wtfs_find_dentry fs dir (d_name de) = Some i ∧
     wtfs_lookup fs dir de flags
     = (with_itable fs
          (<[wtfs_find_dentry fs dir (d_name de)
             := set_count (i_count i + 1) i]> (itable fs)),
        d_add de (Some (wtfs_find_dentry fs dir (d_name de))), None)).
Proof.
  unfold wtfs_lookup, wtfs_iget.
  destruct (decide (wtfs_find_dentry fs dir (d_name de) = 0)) as [Hz|Hnz].
  - left. split; [done|]. rewrite decide_False; [done|]. by intros [].
  - right. rewrite decide_True by done.
    destruct (itable fs !! _) as [i|] eqn:Hi.
    + right. split; [done|]. by exists i.
    + left. by repeat split.
Qed.

(** The table after a successful create in a live directory. *)
Lemma create_ok_state fs dir de mode excl fs' de' :
  is_Some (itable fs !! dir) →
  wtfs_create fs dir de mode excl = (fs', de', 0) →
  ∃ vi d, wtfs_alloc_free_inode fs = Some vi ∧ itable fs !! vi = None ∧
    vi ≠ 0 ∧ vi ≠ dir ∧ itable fs !! dir = Some d ∧
    (d_name de ∉ (i_dentries d).*1) ∧ de' = d_instantiate de vi ∧
    fs' = with_itable fs
            (<[dir := set_dentries (i_dentries d ++ [(d_name de, vi)]) d]>
               (<[vi := Inode (Z.lor mode S_IFREG) 1 1 (s_time (sb fs)) [] ""]>
                  (itable fs))).
Proof.
  intros Hlive [(? & _)|(_ & vi & fs2 & Halloc & Hadd & -> & ->)]%create_cases;
    [lia|].
  destruct (alloc_free_inode_fresh _ _ Halloc) as [Hfresh Hnz].
  destruct (add_then_inc_state _ _ _ _ _ _ _ Hfresh Hlive Hadd)
    as (d & Hd & Hne & Hn & ->).
  rewrite substring_all in *. by exists vi, d.
Qed.

(** The table after a successful mkdir in a live directory. *)
Lemma mkdir_ok_state fs dir de mode fs' de' :
  is_Some (itable fs !! dir) →
  wtfs_mkdir fs dir de mode = (fs', de', 0) →
  ∃ vi d, wtfs_alloc_free_inode fs = Some vi ∧ itable fs !! vi = None ∧
    vi ≠ 0 ∧ vi ≠ dir ∧ itable fs !! dir = Some d ∧
    (d_name de ∉ (i_dentries d).*1) ∧ de' = d_instantiate de vi ∧
    fs' = with_itable fs
            (<[dir := set_dentries (i_dentries d ++ [(d_name de, vi)]) d]>
               (<[vi := Inode (Z.lor mode S_IFDIR) 1 1 (s_time (sb fs))
                              [(".", vi); ("..", dir)] ""]>
                  (itable fs))).
Proof.
  intros Hlive [(? & _)|(_ & vi & fs2 & Halloc & Hadd & -> & ->)]%mkdir_cases;
    [lia|].
  destruct (alloc_free_inode_fresh _ _ Halloc) as [Hfresh Hnz].
  destruct (add_then_inc_state _ _ _ _ _ _ _ Hfresh Hlive Hadd)
    as (d & Hd & Hne & Hn & ->).
  rewrite substring_all in *. by exists vi, d.
Qed.

Lemma find_by_name_elem name l :
  find_by_name name l ≠ 0 → (name, find_by_name name l) ∈ l.
Proof.
  induction l as [|[n i] l IH]; simpl; [done|].
  case_decide as Hd.
  - intros _. subst n. by left.
  - intros H. right. by apply IH.
Qed.

Lemma entries_of_live fs dir name :
  name ∈ (entries_of fs dir).*1 →
  ∃ d, itable fs !! dir = Some d ∧ entries_of fs dir = i_dentries d.
Proof.
  unfold entries_of. destruct (itable fs !! dir) as [d|]; [by eauto|].
  by intros ?%elem_of_nil.
Qed.

(** In a table without dangling records a name that resolves names a live
    inode. *)
Lemma find_dentry_live fs dir name :
  no_dangling fs → wtfs_find_dentry fs dir name ≠ 0 →
  is_Some (itable fs !! wtfs_find_dentry fs dir name).
Proof.
  unfold wtfs_find_dentry, entries_of. intros Hwf Hnz.
  destruct (itable fs !! dir) as [d|] eqn:Hd; [|done].
  apply find_by_name_elem in Hnz.
  specialize (Hwf dir d Hd). simpl in Hwf.
  rewrite Forall_forall in Hwf. by apply (Hwf _ Hnz).
Qed.

(** An add of a name that is already there answers Duplicate. *)
Lemma add_dentry_dup fs dir d ino name len :
  itable fs !! dir = Some d → (len ≤ s_name_max (sb fs))%nat →
  substring 0 len name ∈ (i_dentries d).*1 →
  wtfs_add_dentry fs dir ino name len = (fs, - EEXIST).
Proof.
  intros Hd Hlen Hin. unfold wtfs_add_dentry. rewrite Hd.
  rewrite decide_False by lia. by rewrite decide_True.
Qed.

(** Lookups after the new inode [vi] was linked into [dir] under [name]:
    every other name of every live directory resolves as before. *)
Lemma lookup_after_link fs vi (N : inode) dir d name d2 de2 flags :
  no_dangling fs → itable fs !! vi = None → itable fs !! dir = Some d →
  is_Some (itable fs !! d2) → (d2 ≠ dir ∨ d_name de2 ≠ name) →
  (wtfs_lookup
     (with_itable fs
        (<[dir := set_dentries (i_dentries d ++ [(name, vi)]) d]>
           (<[vi := N]> (itable fs)))) d2 de2 flags).1.2
  = (wtfs_lookup fs d2 de2 flags).1.2
  ∧ (wtfs_lookup
       (with_itable fs
          (<[dir := set_dentries (i_dentries d ++ [(name, vi)]) d]>
             (<[vi := N]> (itable fs)))) d2 de2 flags).2
    = (wtfs_lookup fs d2 de2 flags).2.
Proof.
  intros Hwf Hfresh Hd [x2 Hd2] Hother.
  set (fs' := with_itable fs _).
  assert (wtfs_find_dentry fs' d2 (d_name de2)
          = wtfs_find_dentry fs d2 (d_name de2)) as Hfind.
  { unfold wtfs_find_dentry, entries_of, fs'; simpl.
    destruct (decide (d2 = dir)) as [->|Hne].
    - rewrite lookup_insert_eq, Hd. simpl.
      destruct Hother as [?|?]; [done|]. by apply find_by_name_snoc_ne.
    - rewrite !lookup_insert_ne, Hd2; [done| |done]. congruence. }
  destruct (lookup_cases fs d2 de2 flags)
    as [(Hz & ->)|[(Hnz & Hdead & _)|(Hnz & i & Hi & ->)]].
  - destruct (lookup_cases fs' d2 de2 flags)
      as [(_ & ->)|[(Hnz' & _)|(Hnz' & _)]]; [done| |]; congruence.
  - apply (find_dentry_live _ _ _ Hwf) in Hnz. rewrite Hdead in Hnz.
    by destruct Hnz.
  - destruct (lookup_cases fs' d2 de2 flags)
      as [(Hz' & _)|[(_ & Hdead' & _)|(_ & i' & _ & ->)]]; [congruence| |].
    + exfalso. rewrite Hfind in Hdead'. unfold fs' in Hdead'. simpl in Hdead'.
      destruct (decide (dir = wtfs_find_dentry fs d2 (d_name de2))) as [E|E].
      * by rewrite <-E, lookup_insert_eq in Hdead'.
      * rewrite lookup_insert_ne, lookup_insert_ne in Hdead'; congruence.
    + simpl. by rewrite Hfind.
Qed.

(** The payload of [dir] after a successful unlink. *)
Lemma unlink_ok_entries fs dir de fs' :
  wtfs_unlink fs dir de = Some (fs', 0) →
  ∃ d, itable fs !! dir = Some d ∧ d_name de ∈ (i_dentries d).*1 ∧
    entries_of fs' dir = remove_by_name (d_name de) (i_dentries d).
Proof.
  intros (vi & Hvi & [(? & _)|(_ & d & Hd & Hin & ->)])%unlink_cases; [lia|].
  exists d. do 2 (split; [done|]).
  unfold entries_of, inode_dec_link_count; simpl. rewrite !lookup_alter.
  destruct (decide (vi = dir)) as [->|Hne]; repeat case_decide; try done;
    by rewrite lookup_insert_eq.
Qed.

Lemma remove_by_name_Forall (P : string * Z → Prop) name l :
  Forall P l → Forall P (remove_by_name name l).
Proof.
  induction 1 as [|[n i] l HP Hl IH]; simpl; [done|].
  case_decide; [done | by constructor].
Qed.

(** Well-formedness under the updates the operations make. *)
Lemma well_formed_insert fs k (x : inode) :
  well_formed fs → k ≠ 0 → NoDup (i_dentries x).*1 →
  Forall (λ e, is_Some (<[k := x]> (itable fs) !! e.2)) (i_dentries x) →
  well_formed (with_itable fs (<[k := x]> (itable fs))).
Proof.
  intros (Hnu & Hnd & Hz) Hk Hx Hlive. split; [|split]; simpl.
  - by apply map_Forall_insert_2.
  - apply map_Forall_insert_2; [done|].
    intros j y Hj. eapply Forall_impl; [by apply (Hnd j y)|].
    intros e He. simpl in *. apply lookup_insert_is_Some'. by right.
  - by rewrite lookup_insert_ne.
Qed.

Lemma well_formed_alter fs k (f : inode → inode) :
  (∀ i, i_dentries (f i) = i_dentries i) →
  well_formed fs → well_formed (with_itable fs (alter f k (itable fs))).
Proof.
  intros Hf Hwf. destruct (itable fs !! k) as [x|] eqn:Hx.
  - rewrite <-(insert_id (itable fs) k x) at 1 by done.
    rewrite alter_insert_eq. destruct Hwf as (Hnu & Hnd & Hz).
    apply well_formed_insert; [done| | |].
    + intros ->. congruence.
    + rewrite Hf. by apply (Hnu k x).
    + rewrite Hf. eapply Forall_impl; [by apply (Hnd k x)|].
      intros e He. simpl in *. apply lookup_insert_is_Some'. by right.
  - unfold alter, map_alter. rewrite partial_alter_id; [|by rewrite Hx].
    by rewrite with_itable_id.
Qed.

Lemma add_dentry_well_formed fs dir ino name len fs' ret :
  well_formed fs → is_Some (itable fs !! ino) →
  wtfs_add_dentry fs dir ino name len = (fs', ret) → well_formed fs'.
Proof.
  intros Hwf Hino Hadd. destruct (decide (ret < 0)) as [Hret|Hret].
  { by apply add_dentry_fail in Hadd as ->. }
  destruct (add_dentry_ok _ _ _ _ _ _ _ Hadd Hret) as (_ & d & Hd & Hn & ->).
  pose proof Hwf as (Hnu & Hnd & Hz).
  apply well_formed_insert; [done| | |]; simpl.
  - intros ->. congruence.
  - rewrite fmap_app. apply NoDup_app. split; [by apply (Hnu dir d)|].
    split; [|apply NoDup_singleton].
    intros x Hx ?%list_elem_of_singleton. by subst.
  - apply Forall_app. split.
    + eapply Forall_impl; [by apply (Hnd dir d)|].
      intros e He. simpl in *. apply lookup_insert_is_Some'. by right.
    + constructor; [|done]. simpl. apply lookup_insert_is_Some'. by right.
Qed.

Lemma create_well_formed fs dir de mode excl fs' de' ret :
  well_formed fs → wtfs_create fs dir de mode excl = (fs', de', ret) →
  well_formed fs'.
Proof.
  intros Hwf [(_ & -> & _)|(_ & vi & fs2 & Halloc & Hadd & -> & _)]%create_cases;
    [done|].
  destruct (alloc_free_inode_fresh _ _ Halloc) as [Hfresh Hnz].
  apply well_formed_alter; [done|].
  eapply add_dentry_well_formed; [| |done].
  - apply well_formed_insert; simpl; [done|done|constructor|constructor].
  - simpl. by rewrite lookup_insert_eq.
Qed.

Lemma mkdir_well_formed fs dir de mode fs' de' ret :
  well_formed fs → wtfs_mkdir fs dir de mode = (fs', de', ret) →
  well_formed fs'.
Proof.
  intros Hwf [(_ & -> & _)|(_ & vi & fs2 & Halloc & Hadd & -> & _)]%mkdir_cases;
    [done|].
  destruct (alloc_free_inode_fresh _ _ Halloc) as [Hfresh Hnz].
  destruct (add_dentry_ok _ _ _ _ _ _ _ Hadd) as (_ & d & Hd & _); [lia|].
  simpl in Hd.
  apply well_formed_alter; [done|].
  eapply add_dentry_well_formed; [| |done].
  - apply well_formed_insert; simpl; [done|done| |].
    + apply NoDup_cons. split; [|apply NoDup_singleton].
      by intros ?%list_elem_of_singleton.
    + repeat constructor; simpl.
      * by rewrite lookup_insert_eq.
      * by rewrite Hd.
  - simpl. by rewrite lookup_insert_eq.
Qed.

Lemma lookup_well_formed fs dir de flags fs' de' r :
  well_formed fs → wtfs_lookup fs dir de flags = (fs', de', r) →
  well_formed fs'.
Proof.
  intros Hwf Hl.
  destruct (lookup_cases fs dir de flags)
    as [(_ & H)|[(_ & _ & H)|(Hnz & i & Hi & H)]];
    rewrite H in Hl; simplify_eq; try done.
  pose proof Hwf as (Hnu & Hnd & Hz).
  apply well_formed_insert; simpl; [done|done| |].
  - by apply (Hnu _ i Hi).
  - eapply Forall_impl; [by apply (Hnd _ i Hi)|].
    intros e He. simpl in *. apply lookup_insert_is_Some'. by right.
Qed.

Lemma unlink_well_formed fs dir de fs' ret :
  well_formed fs → wtfs_unlink fs dir de = Some (fs', ret) →
  well_formed fs'.
Proof.
  intros Hwf (vi & _ & [(_ & ->)|(_ & d & Hd & _ & ->)])%unlink_cases; [done|].
  pose proof Hwf as (Hnu & Hnd & Hz).
  unfold inode_dec_link_count.
  apply well_formed_alter; [done|].
  assert (well_formed
            (with_itable fs
               (<[dir := set_dentries
                           (remove_by_name (d_name de) (i_dentries d)) d]>
                  (itable fs)))) as Hwf1.
  { apply well_formed_insert; simpl; [done| | |].
    - intros ->. congruence.
    - apply remove_by_name_NoDup. by apply (Hnu dir d).
    - apply remove_by_name_Forall.
      eapply Forall_impl; [by apply (Hnd dir d)|].
      intros e He. simpl in *. apply lookup_insert_is_Some'. by right. }
  exact (well_formed_alter _ vi (set_ctime (i_ctime d)) (λ _, eq_refl) Hwf1).
Qed.

(** Sums over the payloads of the table, for any count [c] of one
    payload. *)
Lemma payload_sum_insert_fresh (c : list (string * Z) → nat)
    (m : gmap Z inode) k x :
  m !! k = None →
  map_fold (λ _ i n, (c (i_dentries i) + n)%nat) 0%nat (<[k := x]> m)
  = (c (i_dentries x)
     + map_fold (λ _ i n, (c (i_dentries i) + n)%nat) 0%nat m)%nat.
Proof. intros Hk. rewrite map_fold_insert_L; [done| |done]. intros; lia. Qed.

Lemma payload_sum_insert_live (c : list (string * Z) → nat)
    (m : gmap Z inode) k x x' :
  m !! k = Some x →
  (map_fold (λ _ i n, (c (i_dentries i) + n)%nat) 0%nat (<[k := x']> m)
   + c (i_dentries x))%nat
  = (map_fold (λ _ i n, (c (i_dentries i) + n)%nat) 0%nat m
     + c (i_dentries x'))%nat.
Proof.
  intros Hk. rewrite <-(insert_delete_id m k x) at 2 by done.
  rewrite <-(insert_delete_eq m k x').
  rewrite !map_fold_insert_L; try (by apply lookup_delete_eq); [lia| |];
    intros; lia.
Qed.

Lemma payload_sum_alter (c : list (string * Z) → nat)
    (m : gmap Z inode) k (f : inode → inode) :
  (∀ i, i_dentries (f i) = i_dentries i) →
  map_fold (λ _ i n, (c (i_dentries i) + n)%nat) 0%nat (alter f k m)
  = map_fold (λ _ i n, (c (i_dentries i) + n)%nat) 0%nat m.
Proof.
  intros Hf. destruct (m !! k) as [x|] eqn:Hx.
  - rewrite <-(insert_id m k x) at 1 by done. rewrite alter_insert_eq.
    pose proof (payload_sum_insert_live c m k x (f x) Hx) as H.
    rewrite Hf in H. lia.
  - unfold alter, map_alter. by rewrite partial_alter_id; [|rewrite Hx].
Qed.

Lemma payload_sum_zero (c : list (string * Z) → nat) (m : gmap Z inode) :
  map_Forall (λ _ i, c (i_dentries i) = 0%nat) m →
  map_fold (λ _ i n, (c (i_dentries i) + n)%nat) 0%nat m = 0%nat.
Proof.
  apply (map_fold_weak_ind
           (λ r m, map_Forall (λ _ i, c (i_dentries i) = 0%nat) m
                   → r = 0%nat)); [done|].
  intros k x m' r Hk IH Hm. apply map_Forall_insert in Hm as [Hx Hm]; [|done].
  rewrite Hx, IH by done. done.
Qed.

(** Counting links. *)
Lemma links_in_app ino l l' :
  links_in ino (l ++ l') = (links_in ino l + links_in ino l')%nat.
Proof. unfold links_in. by rewrite filter_app, length_app. Qed.

Lemma links_in_one ino name vi :
  name ≠ "." → name ≠ ".." →
  links_in ino [(name, vi)] = if decide (vi = ino) then 1%nat else 0%nat.
Proof.
  intros H1 H2. unfold links_in. case_decide.
  - by rewrite filter_cons_True.
  - rewrite filter_cons_False; [done|]. simpl. tauto.
Qed.

Lemma links_in_dots ino vi dir : links_in ino [(".", vi); ("..", dir)] = 0%nat.
Proof.
  unfold links_in. rewrite !filter_cons_False; [done| |]; simpl; tauto.
Qed.

Lemma links_in_dead fs ino l :
  itable fs !! ino = None →
  Forall (λ e, is_Some (itable fs !! e.2)) l → links_in ino l = 0%nat.
Proof.
  intros Hdead Hall. unfold links_in.
  induction Hall as [|e l [i Hi] _ IH]; [done|].
  rewrite filter_cons_False; [done|]. intros [Heq _]. rewrite Heq in Hi.
  congruence.
Qed.

Lemma links_to_dead fs ino :
  no_dangling fs → itable fs !! ino = None → links_to fs ino = 0%nat.
Proof.
  intros Hwf Hdead. apply payload_sum_zero.
  intros k i Hk. eapply links_in_dead; [done|]. by apply (Hwf k).
Qed.

Lemma links_in_remove ino name l :
  name ∈ l.*1 → name ≠ "." → name ≠ ".." →
  links_in ino l
  = (links_in ino (remove_by_name name l)
     + if decide (find_by_name name l = ino) then 1 else 0)%nat.
Proof.
  intros Hin H1 H2. induction l as [|[n i] l IH]; simpl.
  { by apply elem_of_nil in Hin. }
  destruct (decide (n = name)) as [->|Hn].
  - change ((name, i) :: l) with ([(name, i)] ++ l).
    rewrite links_in_app, links_in_one by done. lia.
  - change ((n, i) :: l) with ([(n, i)] ++ l).
    change ((n, i) :: remove_by_name name l)
      with ([(n, i)] ++ remove_by_name name l).
    rewrite !links_in_app, IH; [lia|].
    rewrite fmap_cons in Hin.
    apply elem_of_cons in Hin as [?|?]; [simpl in *; congruence|done].
Qed.

(** The links of every inode after the new inode [vi], whose own payload
    holds no link, was linked into the live directory [dir]. *)
Lemma links_after_link fs vi (N : inode) dir d name ino :
  itable fs !! vi = None → itable fs !! dir = Some d →
  name ≠ "." → name ≠ ".." → links_in ino (i_dentries N) = 0%nat →
  links_to
    (with_itable fs
       (<[dir := set_dentries (i_dentries d ++ [(name, vi)]) d]>
          (<[vi := N]> (itable fs)))) ino
  = (links_to fs ino + if decide (vi = ino) then 1 else 0)%nat.
Proof.
  intros Hfresh Hd H1 H2 HN. unfold links_to; simpl.
  assert (vi ≠ dir) as Hne by congruence.
  pose proof (payload_sum_insert_live (links_in ino)
                (<[vi := N]> (itable fs)) dir d
                (set_dentries (i_dentries d ++ [(name, vi)]) d)) as Hlive.
  rewrite lookup_insert_ne in Hlive by done. specialize (Hlive Hd).
  rewrite (payload_sum_insert_fresh (links_in ino) (itable fs) vi N Hfresh)
    in Hlive.
  rewrite HN in Hlive.
  simpl in Hlive. rewrite links_in_app, links_in_one in Hlive by done.
  lia.
Qed.

(** Link counts after the new inode [vi], with link count 1 and no link
    in its own payload, was linked into the live directory [dir]. *)
Lemma link_ok_after_link fs vi (N : inode) dir d name :
  no_dangling fs → itable fs !! vi = None → itable fs !! dir = Some d →
  name ≠ "." → name ≠ ".." → i_nlink N = 1 →
  (∀ ino, links_in ino (i_dentries N) = 0%nat) →
  link_ok
    (with_itable fs
       (<[dir := set_dentries (i_dentries d ++ [(name, vi)]) d]>
          (<[vi := N]> (itable fs)))) vi
  ∧ ∀ j, link_ok fs j →
      link_ok
        (with_itable fs
           (<[dir := set_dentries (i_dentries d ++ [(name, vi)]) d]>
              (<[vi := N]> (itable fs)))) j.
Proof.
  intros Hwf Hfresh Hd H1 H2 HN HP.
  assert (vi ≠ dir) as Hne by congruence.
  split.
  - unfold link_ok. rewrite links_after_link by done.
    rewrite (links_to_dead _ _ Hwf Hfresh), decide_True by done.
    unfold nlink_of; simpl.
    rewrite lookup_insert_ne, lookup_insert_eq by done. simpl.
    by rewrite HN.
  - intros j Hj. unfold link_ok in *. rewrite links_after_link by done.
    assert (vi ≠ j) as Hvj.
    { intros ->. unfold nlink_of in Hj. by rewrite Hfresh in Hj. }
    rewrite decide_False, Nat.add_0_r, <-Hj by done.
    unfold nlink_of; simpl. destruct (decide (j = dir)) as [->|Hjd].
    + by rewrite lookup_insert_eq, Hd.
    + by rewrite !lookup_insert_ne.
Qed.
End OperationFacts.

(** ** More properties of the operations *)

(** *** Failure leaves no trace *)

(** X1: a create that returns anything but 0 returns a negative error
    number and leaves the file system and the dentry exactly as they were,
    whichever step failed (the allocation of the inode or the add). *)
Theorem create_failure_is_atomic (fs : wtfs) (dir : Z) (de : dentry)
    (mode : Z) (excl : bool) (fs' : wtfs) (de' : dentry) (ret : Z) :
  wtfs_create fs dir de mode excl = (fs', de', ret) → ret ≠ 0 →
  ret < 0 ∧ fs' = fs ∧ de' = de.
Proof.
  intros [H|(-> & _)]%create_cases Hret; [done | lia].
Qed.

Lemma create_failure_is_atomic_witness :
  wtfs_create fs_noslot 1 (neg "a") 0x1A4 false
    = (fs_noslot, neg "a", - ENOSPC)
  ∧ (- ENOSPC < 0 ∧ fs_noslot = fs_noslot ∧ neg "a" = neg "a").
Proof.
  split; [reflexivity|].
  apply (create_failure_is_atomic fs_noslot 1 (neg "a") 0x1A4 false
           fs_noslot (neg "a") (- ENOSPC)).
  - reflexivity.
  - vm_compute. discriminate.
Defined.

(** X2: a mkdir that returns anything but 0 returns a negative error
    number and leaves the file system and the dentry exactly as they were,
    whichever of its four steps failed. *)
Theorem mkdir_failure_is_atomic (fs : wtfs) (dir : Z) (de : dentry)
    (mode : Z) (fs' : wtfs) (de' : dentry) (ret : Z) :
  wtfs_mkdir fs dir de mode = (fs', de', ret) → ret ≠ 0 →
  ret < 0 ∧ fs' = fs ∧ de' = de.
Proof.
  intros [H|(-> & _)]%mkdir_cases Hret; [done | lia].
Qed.

Lemma mkdir_failure_is_atomic_witness :
  wtfs_mkdir fs0 1 (neg "a-name-of-more-than-sixteen-bytes") 0x1ED
    = (fs0, neg "a-name-of-more-than-sixteen-bytes", - ENAMETOOLONG)
  ∧ (- ENAMETOOLONG < 0 ∧ fs0 = fs0
     ∧ neg "a-name-of-more-than-sixteen-bytes"
       = neg "a-name-of-more-than-sixteen-bytes").
Proof.
  split; [reflexivity|].
  apply (mkdir_failure_is_atomic fs0 1
           (neg "a-name-of-more-than-sixteen-bytes") 0x1ED
           fs0 (neg "a-name-of-more-than-sixteen-bytes") (- ENAMETOOLONG)).
  - reflexivity.
  - vm_compute. discriminate.
Defined.

(** *** What success changes, and what it leaves alone *)

(** X3: a successful create in a live directory binds the dentry to a
    fresh non-zero inode with the mode given or-ed with S_IFREG, link count
    1, one reference and an empty payload; it appends the one record (name,
    inode) to the payload of [dir], whose other fields (link count, ctime)
    stay as they were, and it touches no other inode. *)
Theorem create_success_frame (fs : wtfs) (dir : Z) (de : dentry) (mode : Z)
    (excl : bool) (fs' : wtfs) (de' : dentry) :
  is_Some (itable fs !! dir) →
  wtfs_create fs dir de mode excl = (fs', de', 0) →
  ∃ vi d, de' = d_instantiate de vi ∧ vi ≠ 0 ∧ itable fs !! vi = None
    ∧ itable fs' !! vi
      = Some (Inode (Z.lor mode S_IFREG) 1 1 (s_time (sb fs)) [] "")
    ∧ itable fs !! dir = Some d
    ∧ (d_name de ∉ (i_dentries d).*1)
    ∧ itable fs' !! dir
      = Some (set_dentries (i_dentries d ++ [(d_name de, vi)]) d)
    ∧ (∀ j, j ≠ vi → j ≠ dir → itable fs' !! j = itable fs !! j)
    ∧ sb fs' = sb fs.
Proof.
  intros Hlive Hc.
  destruct (create_ok_state _ _ _ _ _ _ _ Hlive Hc)
    as (vi & d & _ & Hfresh & Hnz & Hne & Hd & Hn & -> & ->).
  exists vi, d. simpl. repeat split; try done.
  - by rewrite lookup_insert_ne, lookup_insert_eq.
  - by rewrite lookup_insert_eq.
  - intros j Hj1 Hj2. by rewrite !lookup_insert_ne.
Qed.

Lemma create_success_frame_witness :
  ∃ vi d, d_instantiate (neg "a") 2 = d_instantiate (neg "a") vi ∧ vi ≠ 0
    ∧ itable fs0 !! vi = None
    ∧ itable (wtfs_create fs0 1 (neg "a") 0x1A4 false).1.1 !! vi
      = Some (Inode (Z.lor 0x1A4 S_IFREG) 1 1 (s_time (sb fs0)) [] "")
    ∧ itable fs0 !! 1 = Some d
    ∧ ("a" ∉ (i_dentries d).*1)
    ∧ itable (wtfs_create fs0 1 (neg "a") 0x1A4 false).1.1 !! 1
      = Some (set_dentries (i_dentries d ++ [("a", vi)]) d)
    ∧ (∀ j, j ≠ vi → j ≠ 1 →
         itable (wtfs_create fs0 1 (neg "a") 0x1A4 false).1.1 !! j
         = itable fs0 !! j)
    ∧ sb (wtfs_create fs0 1 (neg "a") 0x1A4 false).1.1 = sb fs0.
Proof.
  apply (create_success_frame fs0 1 (neg "a") 0x1A4 false
           (wtfs_create fs0 1 (neg "a") 0x1A4 false).1.1
           (d_instantiate (neg "a") 2)).
  - vm_compute. eexists. reflexivity.
  - reflexivity.
Defined.

(** X4: a successful mkdir in a live directory binds the dentry to a
    fresh non-zero inode with the mode given or-ed with S_IFDIR, link count
    1, one reference and the payload '.', '..'; it appends the one record
    (name, inode) to the payload of [dir], whose other fields stay as they
    were, and it touches no other inode. *)
Theorem mkdir_success_frame (fs : wtfs) (dir : Z) (de : dentry) (mode : Z)
    (fs' : wtfs) (de' : dentry) :
  is_Some (itable fs !! dir) →
  wtfs_mkdir fs dir de mode = (fs', de', 0) →
  ∃ vi d, de' = d_instantiate de vi ∧ vi ≠ 0 ∧ itable fs !! vi = None
    ∧ itable fs' !! vi
      = Some (Inode (Z.lor mode S_IFDIR) 1 1 (s_time (sb fs))
                    [(".", vi); ("..", dir)] "")
    ∧ itable fs !! dir = Some d
    ∧ (d_name de ∉ (i_dentries d).*1)
    ∧ itable fs' !! dir
      = Some (set_dentries (i_dentries d ++ [(d_name de, vi)]) d)
    ∧ (∀ j, j ≠ vi → j ≠ dir → itable fs' !! j = itable fs !! j)
    ∧ sb fs' = sb fs.
Proof.
  intros Hlive Hc.
  destruct (mkdir_ok_state _ _ _ _ _ _ Hlive Hc)
    as (vi & d & _ & Hfresh & Hnz & Hne & Hd & Hn & -> & ->).
  exists vi, d. simpl. repeat split; try done.
  - by rewrite lookup_insert_ne, lookup_insert_eq.
  - by rewrite lookup_insert_eq.
  - intros j Hj1 Hj2. by rewrite !lookup_insert_ne.
Qed.

Lemma mkdir_success_frame_witness :
  ∃ vi d, d_instantiate (neg "sub") 2 = d_instantiate (neg "sub") vi ∧ vi ≠ 0
    ∧ itable fs0 !! vi = None
    ∧ itable (wtfs_mkdir fs0 1 (neg "sub") 0x1ED).1.1 !! vi
      = Some (Inode (Z.lor 0x1ED S_IFDIR) 1 1 (s_time (sb fs0))
                    [(".", vi); ("..", 1)] "")
    ∧ itable fs0 !! 1 = Some d
    ∧ ("sub" ∉ (i_dentries d).*1)
    ∧ itable (wtfs_mkdir fs0 1 (neg "sub") 0x1ED).1.1 !! 1
      = Some (set_dentries (i_dentries d ++ [("sub", vi)]) d)
    ∧ (∀ j, j ≠ vi → j ≠ 1 →
         itable (wtfs_mkdir fs0 1 (neg "sub") 0x1ED).1.1 !! j
         = itable fs0 !! j)
    ∧ sb (wtfs_mkdir fs0 1 (neg "sub") 0x1ED).1.1 = sb fs0.
Proof.
  apply (mkdir_success_frame fs0 1 (neg "sub") 0x1ED
           (wtfs_mkdir fs0 1 (neg "sub") 0x1ED).1.1
           (d_instantiate (neg "sub") 2)).
  - vm_compute. eexists. reflexivity.
  - reflexivity.
Defined.

(** X5: a successful unlink removes from [dir] the first record with the
    name, decrements the link count of the dentry's inode (as an unsigned
    32-bit number) and sets its ctime to that of [dir].  It never takes an
    inode out of the table, not even at link count 0, and it touches no
    inode other than [dir] and the target. *)
Theorem unlink_success_effect (fs : wtfs) (dir : Z) (de : dentry)
    (fs' : wtfs) :
  wtfs_unlink fs dir de = Some (fs', 0) →
  ∃ vi d, d_inode de = Some vi ∧ itable fs !! dir = Some d
    ∧ d_name de ∈ (i_dentries d).*1
    ∧ entries_of fs' dir = remove_by_name (d_name de) (i_dentries d)
    ∧ nlink_of fs' vi = (λ n, (n - 1) mod UINT_MOD) <$> nlink_of fs vi
    ∧ ctime_of fs' vi = (λ _, i_ctime d) <$> ctime_of fs vi
    ∧ (∀ j, is_Some (itable fs' !! j) ↔ is_Some (itable fs !! j))
    ∧ (∀ j, j ≠ vi → j ≠ dir → itable fs' !! j = itable fs !! j)
    ∧ sb fs' = sb fs.
Proof.
  intros (vi & Hvi & [(? & _)|(_ & d & Hd & Hin & ->)])%unlink_cases; [lia|].
  exists vi, d. do 3 (split; [done|]).
  unfold entries_of, nlink_of, ctime_of, inode_dec_link_count; simpl.
  repeat split.
  - rewrite !lookup_alter.
    destruct (decide (vi = dir)) as [->|Hne]; repeat case_decide; try done;
      by rewrite lookup_insert_eq.
  - rewrite !lookup_alter, !decide_True by done.
    destruct (decide (vi = dir)) as [->|Hne].
    + by rewrite lookup_insert_eq, Hd.
    + rewrite lookup_insert_ne by done. by destruct (itable fs !! vi).
  - rewrite !lookup_alter, !decide_True by done.
    destruct (decide (vi = dir)) as [->|Hne].
    + by rewrite lookup_insert_eq, Hd.
    + rewrite lookup_insert_ne by done. by destruct (itable fs !! vi).
  - rewrite !lookup_alter. repeat case_decide; subst;
      rewrite ?fmap_is_Some;
      (destruct (decide (j = dir)) as [->|Hne];
       [rewrite lookup_insert_eq, Hd; by intros; eexists
       |by rewrite lookup_insert_ne]).
  - rewrite !lookup_alter. repeat case_decide; subst;
      rewrite ?fmap_is_Some;
      (destruct (decide (j = dir)) as [->|Hne];
       [rewrite lookup_insert_eq; by intros; eexists
       |by rewrite lookup_insert_ne]).
  - intros j Hj1 Hj2. rewrite !lookup_alter, !decide_False by done.
    by rewrite lookup_insert_ne.
Qed.

Lemma unlink_success_effect_witness :
  ∃ fs', wtfs_unlink fs_tree 1 (Dentry "a" (Some 3) true) = Some (fs', 0)
  ∧ ∃ vi d, d_inode (Dentry "a" (Some 3) true) = Some vi
    ∧ itable fs_tree !! 1 = Some d
    ∧ "a" ∈ (i_dentries d).*1
    ∧ entries_of fs' 1 = remove_by_name "a" (i_dentries d)
    ∧ nlink_of fs' vi = (λ n, (n - 1) mod UINT_MOD) <$> nlink_of fs_tree vi
    ∧ ctime_of fs' vi = (λ _, i_ctime d) <$> ctime_of fs_tree vi
    ∧ (∀ j, is_Some (itable fs' !! j) ↔ is_Some (itable fs_tree !! j))
    ∧ (∀ j, j ≠ vi → j ≠ 1 → itable fs' !! j = itable fs_tree !! j)
    ∧ sb fs' = sb fs_tree.
Proof.
  eexists. split; [reflexivity|].
  apply (unlink_success_effect fs_tree 1 (Dentry "a" (Some 3) true)).
  reflexivity.
Defined.

(** *** Lookup *)

(** X6: a lookup, whatever it finds, keeps the name of the dentry and
    changes nothing in the file system but reference counts: every inode
    of the table is afterwards what it was before up to [i_count], and no
    inode is added or removed. *)
Theorem lookup_changes_reference_counts_only (fs : wtfs) (dir : Z)
    (de : dentry) (flags : Z) :
  sb (wtfs_lookup fs dir de flags).1.1 = sb fs
  ∧ d_name (wtfs_lookup fs dir de flags).1.2 = d_name de
  ∧ ∀ j, set_count 0 <$> itable (wtfs_lookup fs dir de flags).1.1 !! j
         = set_count 0 <$> itable fs !! j.
Proof.
  destruct (lookup_cases fs dir de flags)
    as [(_ & ->)|[(_ & _ & ->)|(_ & i & Hi & ->)]]; simpl;
    repeat split; try done.
  intros j. destruct (decide (j = wtfs_find_dentry fs dir (d_name de)))
    as [->|Hne].
  - by rewrite lookup_insert_eq, Hi.
  - by rewrite lookup_insert_ne.
Qed.

(** X7: in a file system without dangling records, for a directory whose
    names are pairwise distinct, lookup never fails with NotFound: the
    inode number that the scan yields, when it is not 0, is in the table,
    so iget is never asked for a missing inode.  Whenever lookup returns
    NULL, the dentry it returns is hashed, and its inode is none when the
    scan yields 0 and the inode number found otherwise. *)
Theorem lookup_never_not_found (fs : wtfs) (dir : Z) (de : dentry)
    (flags : Z) :
  no_dangling fs → NoDup (entries_of fs dir).*1 →
  (wtfs_find_dentry fs dir (d_name de) ≠ 0 →
   is_Some (itable fs !! wtfs_find_dentry fs dir (d_name de)))
  ∧ (wtfs_lookup fs dir de flags).2 ≠ Some (- ENOENT)
  ∧ ((wtfs_lookup fs dir de flags).2 = None →
     d_hashed (wtfs_lookup fs dir de flags).1.2 = true
     ∧ d_inode (wtfs_lookup fs dir de flags).1.2
       = if decide (wtfs_find_dentry fs dir (d_name de) = 0)
         then None
         else Some (wtfs_find_dentry fs dir (d_name de))).
Proof.
  intros Hwf _. split; [by apply find_dentry_live|].
  destruct (lookup_cases fs dir de flags)
    as [(Hz & ->)|[(Hnz & Hdead & _)|(Hnz & i & Hi & ->)]]; simpl.
  - split; [done|]. intros _. by rewrite decide_True.
  - apply (find_dentry_live _ _ _ Hwf) in Hnz. rewrite Hdead in Hnz.
    by destruct Hnz.
  - split; [done|]. intros _. by rewrite decide_False.
Qed.

Lemma lookup_never_not_found_witness :
  (wtfs_find_dentry fs_tree 1 "sub" ≠ 0 →
   is_Some (itable fs_tree !! wtfs_find_dentry fs_tree 1 "sub"))
  ∧ (wtfs_lookup fs_tree 1 (neg "sub") 0).2 ≠ Some (- ENOENT)
  ∧ ((wtfs_lookup fs_tree 1 (neg "sub") 0).2 = None →
     d_hashed (wtfs_lookup fs_tree 1 (neg "sub") 0).1.2 = true
     ∧ d_inode (wtfs_lookup fs_tree 1 (neg "sub") 0).1.2
       = if decide (wtfs_find_dentry fs_tree 1 "sub" = 0)
         then None
         else Some (wtfs_find_dentry fs_tree 1 "sub")).
Proof.
  apply (lookup_never_not_found fs_tree 1 (neg "sub") 0).
  - unfold no_dangling. apply (bool_decide_unpack _). vm_compute. exact I.
  - apply (bool_decide_unpack _). vm_compute. exact I.
Defined.

(** X8: in a file system without dangling records and without an inode
    numbered 0, for a directory whose names are pairwise distinct, a name
    that a record of [dir] carries never looks up as absent or as
    NotFound: the inode the record names is live and non-zero, the scan
    yields it, and whenever lookup returns NULL the inode of the dentry it
    returns is exactly that inode. *)
Theorem lookup_present_resolves (fs : wtfs) (dir : Z) (de : dentry)
    (flags : Z) (vi : Z) :
  no_dangling fs → itable fs !! 0 = None →
  NoDup (entries_of fs dir).*1 →
  (d_name de, vi) ∈ entries_of fs dir →
  vi ≠ 0 ∧ is_Some (itable fs !! vi)
  ∧ wtfs_find_dentry fs dir (d_name de) = vi
  ∧ (wtfs_lookup fs dir de flags).2 ≠ Some (- ENOENT)
  ∧ ((wtfs_lookup fs dir de flags).2 = None →
     d_inode (wtfs_lookup fs dir de flags).1.2 = Some vi).
Proof.
  intros Hwf Hz Hnd Hin.
  assert (wtfs_find_dentry fs dir (d_name de) = vi) as Hfind
    by (by apply find_by_name_present).
  assert (is_Some (itable fs !! vi)) as Hlive.
  { unfold entries_of in Hin.
    destruct (itable fs !! dir) as [d|] eqn:Hd; [|by apply elem_of_nil in Hin].
    specialize (Hwf dir d Hd). simpl in Hwf. rewrite Forall_forall in Hwf.
    by apply (Hwf _ Hin). }
  assert (vi ≠ 0) as Hnz by (intros ->; rewrite Hz in Hlive; by destruct Hlive).
  do 3 (split; [done|]).
  destruct (lookup_cases fs dir de flags)
    as [(Hz' & _)|[(_ & Hdead & _)|(_ & i & Hi & ->)]]; simpl.
  - congruence.
  - rewrite Hfind in Hdead. rewrite Hdead in Hlive. by destruct Hlive.
  - split; [done|]. intros _. by rewrite Hfind.
Qed.

Lemma lookup_present_resolves_witness :
  3 ≠ 0 ∧ is_Some (itable fs_tree !! 3)
  ∧ wtfs_find_dentry fs_tree 1 "a" = 3
  ∧ (wtfs_lookup fs_tree 1 (neg "a") 0).2 ≠ Some (- ENOENT)
  ∧ ((wtfs_lookup fs_tree 1 (neg "a") 0).2 = None →
     d_inode (wtfs_lookup fs_tree 1 (neg "a") 0).1.2 = Some 3).
Proof.
  apply (lookup_present_resolves fs_tree 1 (neg "a") 0 3).
  - unfold no_dangling. apply (bool_decide_unpack _). vm_compute. exact I.
  - reflexivity.
  - apply (bool_decide_unpack _). vm_compute. exact I.
  - apply (bool_decide_unpack _). vm_compute. exact I.
Defined.

(** X9: the scan's 0 is read as not-found, so a record whose inode number
    is 0 is invisible: with unique names in [dir], the lookup of a name
    recorded with inode number 0 returns NULL and a negative dentry and
    changes nothing, as if the name were absent. *)
Theorem lookup_ignores_inode_zero (fs : wtfs) (dir : Z) (de : dentry)
    (flags : Z) :
  NoDup (entries_of fs dir).*1 →
  (d_name de, 0) ∈ entries_of fs dir →
  wtfs_lookup fs dir de flags = (fs, d_add de None, None).
Proof.
  intros Hnd Hin.
  destruct (lookup_cases fs dir de flags) as [(_ & ->)|[(Hnz & _)|(Hnz & _)]];
    [done| |]; exfalso; apply Hnz; unfold wtfs_find_dentry;
    by apply find_by_name_present.
Qed.

Lemma lookup_ignores_inode_zero_witness :
  wtfs_lookup fs_void 1 (neg "void") 0 = (fs_void, d_add (neg "void") None, None).
Proof.
  apply (lookup_ignores_inode_zero fs_void 1 (neg "void") 0).
  - apply (bool_decide_unpack _). vm_compute. exact I.
  - apply (bool_decide_unpack _). vm_compute. exact I.
Defined.

(** *** How the operations compose *)

(** X10: a name that is present in [dir] cannot be created again: create
    (for either value of [excl]) and mkdir return a negative error number
    and leave the file system and the dentry as they were; when the
    allocation of the inode succeeds, the name is within the length limit
    and the payload of [dir] has room, so that the duplicate is the only
    ground for the add to fail, create's error is -EEXIST. *)
Theorem existing_name_is_rejected (fs : wtfs) (dir : Z) (de : dentry)
    (mode : Z) (excl : bool) :
  d_name de ∈ (entries_of fs dir).*1 →
  (∃ ret, wtfs_create fs dir de mode excl = (fs, de, ret) ∧ ret < 0
     ∧ (∀ fs1 vi,
          wtfs_new_inode fs dir (Z.lor mode S_IFREG) None 0 = (fs1, Ptr vi) →
          (String.length (d_name de) ≤ s_name_max (sb fs))%nat →
          (List.length (entries_of fs dir) < s_dentry_max (sb fs))%nat →
          ret = - EEXIST))
  ∧ (∃ ret, wtfs_mkdir fs dir de mode = (fs, de, ret) ∧ ret < 0).
Proof.
  intros Hin. destruct (entries_of_live _ _ _ Hin) as (d & Hd & Hent).
  rewrite Hent in Hin. split.
  - destruct (wtfs_create fs dir de mode excl) as [[fs' de'] ret] eqn:Hc.
    destruct (decide (ret = 0)) as [->|Hret].
    { destruct (create_ok_state _ _ _ _ _ _ _ (mk_is_Some _ _ Hd) Hc)
        as (? & d' & _ & _ & _ & _ & Hd' & Hn & _). by simplify_eq. }
    destruct (create_cases _ _ _ _ _ _ _ _ Hc) as [(Hneg & -> & ->)|(? & _)];
      [|done].
    exists ret. do 2 (split; [done|]). intros fs1 vi Hnew Hlen _.
    destruct (new_inode_Ptr _ _ _ _ _ Hnew) as [Halloc _].
    destruct (alloc_free_inode_fresh _ _ Halloc) as [Hfresh _].
    revert Hc. unfold wtfs_create, wtfs_new_inode. rewrite Halloc.
    erewrite add_dentry_dup; [| |done|].
    + rewrite decide_True by (unfold EEXIST; lia). by intros; simplify_eq.
    + simpl. rewrite lookup_insert_ne by congruence. done.
    + by rewrite substring_all.
  - destruct (wtfs_mkdir fs dir de mode) as [[fs' de'] ret] eqn:Hc.
    destruct (decide (ret = 0)) as [->|Hret].
    { destruct (mkdir_ok_state _ _ _ _ _ _ (mk_is_Some _ _ Hd) Hc)
        as (? & d' & _ & _ & _ & _ & Hd' & Hn & _). by simplify_eq. }
    destruct (mkdir_cases _ _ _ _ _ _ _ Hc) as [(Hneg & -> & ->)|(? & _)];
      [|done].
    by exists ret.
Qed.

Lemma existing_name_is_rejected_witness :
  (∃ ret, wtfs_create fs_tree 1 (neg "a") 0x1A4 true = (fs_tree, neg "a", ret)
     ∧ ret < 0
     ∧ (∀ fs1 vi,
          wtfs_new_inode fs_tree 1 (Z.lor 0x1A4 S_IFREG) None 0
            = (fs1, Ptr vi) →
          (String.length "a" ≤ s_name_max (sb fs_tree))%nat →
          (List.length (entries_of fs_tree 1) < s_dentry_max (sb fs_tree))%nat →
          ret = - EEXIST))
  ∧ (∃ ret, wtfs_mkdir fs_tree 1 (neg "a") 0x1A4 = (fs_tree, neg "a", ret)
       ∧ ret < 0).
Proof.
  apply (existing_name_is_rejected fs_tree 1 (neg "a") 0x1A4 true).
  apply (bool_decide_unpack _). vm_compute. exact I.
Defined.

(** X11: linking a new object into a live directory, by create or by
    mkdir, disturbs no other name: in a file system without dangling
    records, the lookup of any other name, or of any name in another live
    directory, gives the same dentry and the same result after the call as
    before. *)
Theorem linking_keeps_other_lookups (fs : wtfs) (dir : Z) (de : dentry)
    (mode : Z) (excl : bool) (fs' : wtfs) (de' : dentry)
    (d2 : Z) (de2 : dentry) (flags : Z) :
  no_dangling fs → is_Some (itable fs !! dir) →
  wtfs_create fs dir de mode excl = (fs', de', 0)
    ∨ wtfs_mkdir fs dir de mode = (fs', de', 0) →
  is_Some (itable fs !! d2) →
  d2 ≠ dir ∨ d_name de2 ≠ d_name de →
  (wtfs_lookup fs' d2 de2 flags).1.2 = (wtfs_lookup fs d2 de2 flags).1.2
  ∧ (wtfs_lookup fs' d2 de2 flags).2 = (wtfs_lookup fs d2 de2 flags).2.
Proof.
  intros Hwf Hlive [Hc|Hc] Hd2 Hother.
  - destruct (create_ok_state _ _ _ _ _ _ _ Hlive Hc)
      as (vi & d & _ & Hfresh & _ & _ & Hd & _ & _ & ->).
    by apply lookup_after_link.
  - destruct (mkdir_ok_state _ _ _ _ _ _ Hlive Hc)
      as (vi & d & _ & Hfresh & _ & _ & Hd & _ & _ & ->).
    by apply lookup_after_link.
Qed.

Lemma linking_keeps_other_lookups_witness :
  (wtfs_lookup (wtfs_mkdir fs_tree 1 (neg "new") 0x1ED).1.1 1 (neg "a") 0).1.2
  = (wtfs_lookup fs_tree 1 (neg "a") 0).1.2
  ∧ (wtfs_lookup (wtfs_mkdir fs_tree 1 (neg "new") 0x1ED).1.1 1 (neg "a") 0).2
    = (wtfs_lookup fs_tree 1 (neg "a") 0).2.
Proof.
  apply (linking_keeps_other_lookups fs_tree 1 (neg "new") 0x1ED false
           (wtfs_mkdir fs_tree 1 (neg "new") 0x1ED).1.1
           (d_instantiate (neg "new") 4) 1 (neg "a") 0).
  - unfold no_dangling. apply (bool_decide_unpack _). vm_compute. exact I.
  - vm_compute. eexists. reflexivity.
  - right. reflexivity.
  - vm_compute. eexists. reflexivity.
  - right. vm_compute. discriminate.
Defined.

(** X12: after a successful mkdir with a valid mode in a live directory, a
    lookup of the same name in that directory returns a dentry whose inode
    is the new inode, whose kind is directory and whose link count is 1. *)
Theorem mkdir_then_lookup (fs : wtfs) (dir : Z) (de : dentry) (mode : Z)
    (fs1 : wtfs) (de1 de2 : dentry) (flags : Z) :
  mode_fits S_IFDIR mode → is_Some (itable fs !! dir) →
  wtfs_mkdir fs dir de mode = (fs1, de1, 0) →
  d_name de2 = d_name de →
  ∃ fs2 vi, wtfs_lookup fs1 dir de2 flags = (fs2, d_add de2 (Some vi), None)
    ∧ d_inode (wtfs_lookup fs1 dir de2 flags).1.2 = Some vi
    ∧ d_inode de1 = Some vi
    ∧ nlink_of fs2 vi = Some 1
    ∧ kind_of fs2 vi = Some Directory.
Proof.
  intros Hmode Hlive Hc Hname.
  destruct (mkdir_ok_state _ _ _ _ _ _ Hlive Hc)
    as (vi & d & _ & Hfresh & Hnz & Hne & Hd & Hn & -> & ->).
  match goal with |- context [wtfs_lookup ?S _ _ _] => set (fs1 := S) end.
  destruct (lookup_found fs1 dir de2 flags vi) as (fs2 & Hlook & Hnl & Hkd).
  - unfold wtfs_find_dentry, entries_of, fs1; simpl.
    rewrite lookup_insert_eq, Hname. simpl. by apply find_by_name_snoc.
  - done.
  - unfold fs1; simpl. by rewrite lookup_insert_ne, lookup_insert_eq.
  - exists fs2, vi. split; [done|]. split; [by rewrite Hlook|].
    split; [done|].
    rewrite Hnl, Hkd. unfold nlink_of, kind_of, fs1; simpl.
    rewrite lookup_insert_ne, lookup_insert_eq by done. simpl.
    split; [done|]. by apply kind_of_mode_lor.
Qed.

Lemma mkdir_then_lookup_witness :
  ∃ fs2 vi,
    wtfs_lookup (wtfs_mkdir fs0 1 (neg "sub") 0x1ED).1.1 1 (neg "sub") 0
      = (fs2, d_add (neg "sub") (Some vi), None)
    ∧ d_inode (wtfs_lookup (wtfs_mkdir fs0 1 (neg "sub") 0x1ED).1.1
                 1 (neg "sub") 0).1.2 = Some vi
    ∧ d_inode (d_instantiate (neg "sub") 2) = Some vi
    ∧ nlink_of fs2 vi = Some 1
    ∧ kind_of fs2 vi = Some Directory.
Proof.
  apply (mkdir_then_lookup fs0 1 (neg "sub") 0x1ED
           (wtfs_mkdir fs0 1 (neg "sub") 0x1ED).1.1
           (d_instantiate (neg "sub") 2) (neg "sub") 0).
  - left. reflexivity.
  - vm_compute. eexists. reflexivity.
  - reflexivity.
  - reflexivity.
Defined.

(** X13: create followed by unlink of the dentry it bound: the unlink
    succeeds, every inode that existed before the create is exactly what
    it was (the payload of [dir] included), and the one difference is the
    new inode, still in the table with link count 0 and the ctime of
    [dir]; a lookup of the name is negative again. *)
Theorem create_then_unlink (fs : wtfs) (dir : Z) (de : dentry) (mode : Z)
    (excl : bool) (fs1 : wtfs) (de1 : dentry) (de2 : dentry) (flags : Z) :
  is_Some (itable fs !! dir) →
  wtfs_create fs dir de mode excl = (fs1, de1, 0) →
  d_name de2 = d_name de →
  ∃ vi d, d_inode de1 = Some vi ∧ itable fs !! vi = None
    ∧ itable fs !! dir = Some d
    ∧ wtfs_unlink fs1 dir de1
      = Some (with_itable fs
                (<[vi := Inode (Z.lor mode S_IFREG) 0 1 (i_ctime d) [] ""]>
                   (itable fs)), 0)
    ∧ wtfs_lookup
        (with_itable fs
           (<[vi := Inode (Z.lor mode S_IFREG) 0 1 (i_ctime d) [] ""]>
              (itable fs))) dir de2 flags
      = (with_itable fs
           (<[vi := Inode (Z.lor mode S_IFREG) 0 1 (i_ctime d) [] ""]>
              (itable fs)), d_add de2 None, None).
Proof.
  intros Hlive Hc Hname.
  destruct (create_ok_state _ _ _ _ _ _ _ Hlive Hc)
    as (vi & d & _ & Hfresh & Hnz & Hne & Hd & Hn & -> & ->).
  exists vi, d. do 3 (split; [done|]). split.
  - unfold wtfs_unlink, wtfs_delete_dentry; simpl.
    rewrite lookup_insert_eq; simpl.
    rewrite decide_True
      by (rewrite fmap_app; apply elem_of_app; right; by left).
    rewrite decide_False by lia.
    unfold ctime_of, inode_dec_link_count; simpl.
    rewrite lookup_insert_eq; simpl. do 2 f_equal. unfold with_itable; simpl.
    f_equal. rewrite remove_by_name_snoc by done.
    rewrite insert_insert_eq.
    replace (set_dentries (i_dentries d) _) with d by by destruct d.
    rewrite !alter_insert_ne by done. rewrite !alter_insert_eq.
    rewrite (insert_id _ dir d); [reflexivity|].
    by rewrite lookup_insert_ne.
  - unfold wtfs_lookup, wtfs_find_dentry, entries_of; simpl.
    rewrite lookup_insert_ne, Hd, Hname by done.
    rewrite (find_by_name_absent _ _ Hn). by rewrite decide_False by tauto.
Qed.

Lemma create_then_unlink_witness :
  ∃ vi d, d_inode (d_instantiate (neg "a") 2) = Some vi
    ∧ itable fs0 !! vi = None
    ∧ itable fs0 !! 1 = Some d
    ∧ wtfs_unlink (wtfs_create fs0 1 (neg "a") 0x1A4 false).1.1 1
        (d_instantiate (neg "a") 2)
      = Some (with_itable fs0
                (<[vi := Inode (Z.lor 0x1A4 S_IFREG) 0 1 (i_ctime d) [] ""]>
                   (itable fs0)), 0)
    ∧ wtfs_lookup
        (with_itable fs0
           (<[vi := Inode (Z.lor 0x1A4 S_IFREG) 0 1 (i_ctime d) [] ""]>
              (itable fs0))) 1 (neg "a") 0
      = (with_itable fs0
           (<[vi := Inode (Z.lor 0x1A4 S_IFREG) 0 1 (i_ctime d) [] ""]>
              (itable fs0)), d_add (neg "a") None, None).
Proof.
  apply (create_then_unlink fs0 1 (neg "a") 0x1A4 false
           (wtfs_create fs0 1 (neg "a") 0x1A4 false).1.1
           (d_instantiate (neg "a") 2) (neg "a") 0).
  - vm_compute. eexists. reflexivity.
  - reflexivity.
  - reflexivity.
Defined.

(** X14: where the names of [dir] are pairwise distinct, a name is gone
    once unlink succeeded: a lookup of it returns NULL and a negative
    dentry. *)
Theorem unlink_then_lookup (fs : wtfs) (dir : Z) (de : dentry) (fs' : wtfs)
    (de2 : dentry) (flags : Z) :
  NoDup (entries_of fs dir).*1 →
  wtfs_unlink fs dir de = Some (fs', 0) →
  d_name de2 = d_name de →
  wtfs_lookup fs' dir de2 flags = (fs', d_add de2 None, None).
Proof.
  intros Hnd (d & Hd & Hin & Hent)%unlink_ok_entries Hname.
  unfold entries_of in Hnd. rewrite Hd in Hnd.
  unfold wtfs_lookup, wtfs_find_dentry. rewrite Hent, Hname.
  rewrite find_by_name_absent by by apply remove_by_name_gone.
  by rewrite decide_False by tauto.
Qed.

Lemma unlink_then_lookup_witness :
  ∃ fs', wtfs_unlink fs_tree 1 (Dentry "a" (Some 3) true) = Some (fs', 0)
    ∧ wtfs_lookup fs' 1 (neg "a") 0 = (fs', d_add (neg "a") None, None).
Proof.
  eexists. split; [reflexivity|].
  apply (unlink_then_lookup fs_tree 1 (Dentry "a" (Some 3) true) _ (neg "a") 0).
  - apply (bool_decide_unpack _). vm_compute. exact I.
  - reflexivity.
  - reflexivity.
Defined.

(** X15: unlink does not look at the link count before it decrements it:
    for a target whose link count is already 0 and a name that is present
    in [dir], unlink succeeds and the count wraps to 4294967295. *)
Theorem unlink_at_zero_wraps (fs : wtfs) (dir : Z) (de : dentry) (vi : Z) :
  d_inode de = Some vi →
  nlink_of fs vi = Some 0 →
  d_name de ∈ (entries_of fs dir).*1 →
  ∃ fs', wtfs_unlink fs dir de = Some (fs', 0)
    ∧ nlink_of fs' vi = Some 4294967295.
Proof.
  intros Hvi Hn Hin.
  destruct (wtfs_unlink fs dir de) as [[fs' ret]|] eqn:Hu.
  2:{ unfold wtfs_unlink in Hu. rewrite Hvi in Hu. simpl in Hu.
      destruct (wtfs_delete_dentry _ _ _); by case_decide. }
  destruct (unlink_cases _ _ _ _ _ Hu)
    as (vi' & Hvi' & [(Hneg & ->)|(-> & d & Hd & _ & ->)]).
  - exfalso. unfold wtfs_unlink in Hu. rewrite Hvi in Hu. simpl in Hu.
    destruct (delete_dentry_ok _ _ _ Hin) as (d & _ & Hdel).
    rewrite Hdel in Hu. rewrite decide_False in Hu by lia.
    simplify_eq. lia.
  - assert (vi' = vi) as -> by congruence.
    eexists. split; [reflexivity|].
    unfold nlink_of in *. unfold inode_dec_link_count; simpl.
    rewrite !lookup_alter, !decide_True by done.
    destruct (decide (vi = dir)) as [->|Hne].
    + rewrite lookup_insert_eq. rewrite Hd in Hn. simplify_eq/=.
      by rewrite Hn.
    + rewrite lookup_insert_ne by done.
      destruct (itable fs !! vi) as [i|]; simplify_eq/=. by rewrite Hn.
Qed.

Lemma unlink_at_zero_wraps_witness :
  ∃ fs', wtfs_unlink fs_unlinked 1 (Dentry "a" (Some 3) true) = Some (fs', 0)
    ∧ nlink_of fs' 3 = Some 4294967295.
Proof.
  apply (unlink_at_zero_wraps fs_unlinked 1 (Dentry "a" (Some 3) true) 3).
  - reflexivity.
  - reflexivity.
  - apply (bool_decide_unpack _). vm_compute. exact I.
Defined.

(** *** Invariants *)

(** X16: well-formedness (unique names within every directory, no
    dangling record, no inode numbered 0) is kept by every call of create,
    lookup, unlink and mkdir, with any arguments and whether the call
    succeeds or fails, and so by every sequence of such calls. *)
Theorem operations_keep_well_formed (fs fs' : wtfs) :
  well_formed fs → rtc wtfs_step fs fs' → well_formed fs'.
Proof.
  intros Hwf Hrun. induction Hrun as [|fs fs1 fs' Hstep _ IH]; [done|].
  apply IH. destruct Hstep as [dir de mode excl de' ret H
                              |dir de flags de' r H
                              |dir de ret H
                              |dir de mode de' ret H].
  - by eapply create_well_formed.
  - by eapply lookup_well_formed.
  - by eapply unlink_well_formed.
  - by eapply mkdir_well_formed.
Qed.

Lemma operations_keep_well_formed_witness :
  well_formed
    (wtfs_mkdir (wtfs_create fs0 1 (neg "a") 0x1A4 false).1.1
                1 (neg "sub") 0x1ED).1.1.
Proof.
  apply (operations_keep_well_formed fs0).
  - split; [|split].
    + unfold names_unique. apply (bool_decide_unpack _). vm_compute. exact I.
    + unfold no_dangling. apply (bool_decide_unpack _). vm_compute. exact I.
    + reflexivity.
  - eapply rtc_l; [by eapply (step_create fs0 _ 1 (neg "a") 0x1A4 false)|].
    eapply rtc_l; [|apply rtc_refl].
    by eapply (step_mkdir _ _ 1 (neg "sub") 0x1ED).
Defined.

(** X17: create and mkdir keep link counts in step with the links (the
    records other than '.' and '..' that name an inode).  In a file system
    without dangling records, after a successful create or mkdir of a name
    other than "." and ".." in a live directory, the link count of the new
    inode equals the number of its links, and so does the link count of
    every inode for which it did before. *)
Theorem linking_keeps_link_counts (fs : wtfs) (dir : Z) (de : dentry)
    (mode : Z) (excl : bool) (fs' : wtfs) (de' : dentry) :
  no_dangling fs → is_Some (itable fs !! dir) →
  d_name de ≠ "." → d_name de ≠ ".." →
  wtfs_create fs dir de mode excl = (fs', de', 0)
    ∨ wtfs_mkdir fs dir de mode = (fs', de', 0) →
  ∃ vi, d_inode de' = Some vi ∧ link_ok fs' vi
    ∧ ∀ j, link_ok fs j → link_ok fs' j.
Proof.
  intros Hwf Hlive H1 H2 [Hc|Hc].
  - destruct (create_ok_state _ _ _ _ _ _ _ Hlive Hc)
      as (vi & d & _ & Hfresh & _ & _ & Hd & _ & -> & ->).
    exists vi. split; [done|]. by apply link_ok_after_link.
  - destruct (mkdir_ok_state _ _ _ _ _ _ Hlive Hc)
      as (vi & d & _ & Hfresh & _ & _ & Hd & _ & -> & ->).
    exists vi. split; [done|]. apply link_ok_after_link; try done.
    intros ino. apply links_in_dots.
Qed.

Lemma linking_keeps_link_counts_witness :
  ∃ vi, d_inode (d_instantiate (neg "new") 4) = Some vi
    ∧ link_ok (wtfs_mkdir fs_tree 1 (neg "new") 0x1ED).1.1 vi
    ∧ ∀ j, link_ok fs_tree j
           → link_ok (wtfs_mkdir fs_tree 1 (neg "new") 0x1ED).1.1 j.
Proof.
  apply (linking_keeps_link_counts fs_tree 1 (neg "new") 0x1ED false
           (wtfs_mkdir fs_tree 1 (neg "new") 0x1ED).1.1
           (d_instantiate (neg "new") 4)).
  - unfold no_dangling. apply (bool_decide_unpack _). vm_compute. exact I.
  - vm_compute. eexists. reflexivity.
  - vm_compute. discriminate.
  - vm_compute. discriminate.
  - right. reflexivity.
Defined.

(** X18: unlink keeps link counts in step with the links.  When the
    dentry's inode is the one the name resolves to in [dir], the name is
    neither "." nor "..", and unlink succeeds, then the link count of the
    target equals the number of its links afterwards if it did before (and
    was below 2^32), and so does the link count of every other inode for
    which it did before. *)
Theorem unlink_keeps_link_counts (fs : wtfs) (dir : Z) (de : dentry)
    (vi : Z) (fs' : wtfs) :
  d_inode de = Some vi →
  wtfs_find_dentry fs dir (d_name de) = vi →
  d_name de ≠ "." → d_name de ≠ ".." →
  wtfs_unlink fs dir de = Some (fs', 0) →
  (link_ok fs vi → Z.of_nat (links_to fs vi) < UINT_MOD → link_ok fs' vi)
  ∧ ∀ j, j ≠ vi → link_ok fs j → link_ok fs' j.
Proof.
  intros Hvi Hfind H1 H2 Hu.
  destruct (unlink_cases _ _ _ _ _ Hu)
    as (vi' & Hvi' & [(? & _)|(_ & d & Hd & Hin & ->)]); [lia|].
  assert (vi' = vi) as -> by congruence.
  unfold wtfs_find_dentry, entries_of in Hfind. rewrite Hd in Hfind.
  (* the links of every inode after the call *)
  assert (∀ ino,
    (links_to
       (inode_dec_link_count
          (with_itable fs
             (alter (set_ctime (i_ctime d)) vi
                (<[dir := set_dentries
                            (remove_by_name (d_name de) (i_dentries d)) d]>
                   (itable fs)))) vi) ino
     + if decide (vi = ino) then 1 else 0)%nat = links_to fs ino) as Hlinks.
  { intros ino. unfold links_to, inode_dec_link_count; simpl.
    rewrite !payload_sum_alter by done.
    pose proof (payload_sum_insert_live (links_in ino) (itable fs) dir d
      (set_dentries (remove_by_name (d_name de) (i_dentries d)) d) Hd) as Hl.
    simpl in Hl.
    rewrite (links_in_remove ino (d_name de) (i_dentries d)) in Hl by done.
    rewrite Hfind in Hl. lia. }
  (* the link count of every inode after the call *)
  assert (∀ j,
    nlink_of
      (inode_dec_link_count
         (with_itable fs
            (alter (set_ctime (i_ctime d)) vi
               (<[dir := set_dentries
                           (remove_by_name (d_name de) (i_dentries d)) d]>
                  (itable fs)))) vi) j
    = (λ n, if decide (j = vi) then (n - 1) mod UINT_MOD else n)
        <$> nlink_of fs j) as Hnlink.
  { intros j. unfold nlink_of, inode_dec_link_count; simpl.
    rewrite !lookup_alter.
    destruct (decide (j = vi)) as [->|Hjv].
    - rewrite !decide_True by done.
      destruct (decide (vi = dir)) as [->|Hvd].
      + by rewrite lookup_insert_eq, Hd.
      + rewrite lookup_insert_ne by done. by destruct (itable fs !! vi).
    - rewrite !decide_False by congruence.
      destruct (decide (j = dir)) as [->|Hjd].
      + by rewrite lookup_insert_eq, Hd.
      + rewrite lookup_insert_ne by done. by destruct (itable fs !! j). }
  split.
  - intros Hok Hlt. unfold link_ok in *. rewrite Hnlink, Hok. simpl.
    rewrite decide_True by done. f_equal.
    specialize (Hlinks vi). rewrite decide_True in Hlinks by done.
    rewrite Z.mod_small; lia.
  - intros j Hj Hok. unfold link_ok in *. rewrite Hnlink, Hok. simpl.
    rewrite decide_False by done. f_equal.
    specialize (Hlinks j). rewrite decide_False in Hlinks by done. lia.
Qed.

Lemma unlink_keeps_link_counts_witness :
  ∃ fs', wtfs_unlink fs_tree 1 (Dentry "a" (Some 3) true) = Some (fs', 0)
    ∧ (link_ok fs_tree 3 → Z.of_nat (links_to fs_tree 3) < UINT_MOD
       → link_ok fs' 3)
    ∧ ∀ j, j ≠ 3 → link_ok fs_tree j → link_ok fs' j.
Proof.
  eexists. split; [reflexivity|].
  apply (unlink_keeps_link_counts fs_tree 1 (Dentry "a" (Some 3) true) 3).
  - reflexivity.
  - reflexivity.
  - vm_compute. discriminate.
  - vm_compute. discriminate.
  - reflexivity.
Defined.

(** The file "a" and the directory "sub" of [fs_tree] have link counts in
    step with their links, before and after the file is unlinked. *)
Example link_counts_in_tree :
  link_ok fs_tree 2 ∧ link_ok fs_tree 3
  ∧ ∃ fs', wtfs_unlink fs_tree 1 (Dentry "a" (Some 3) true) = Some (fs', 0)
      ∧ link_ok fs' 2 ∧ link_ok fs' 3.
Proof.
  split; [vm_compute; reflexivity|]. split; [vm_compute; reflexivity|].
  eexists. split; [reflexivity|]. split; vm_compute; reflexivity.
Qed.
